(** * Request handlers of globus_portal_framework/views.py

    The handlers are orchestration code: they read the request, call helpers
    of the portal framework, of Django and of the Globus SDK, mutate the
    [context] dictionary and the session, and hand the context to [render].
    They are embedded in a state-and-exception monad.  The state holds the
    session, the handler's [context] dictionary and the trace of every
    external call made so far; what an external call answers (a value or a
    raised exception) is given by a [World], over which every theorem is
    universally quantified. *)

From Stdlib Require Import ZArith String Ascii.
From stdpp Require Import gmap strings list fin_maps pretty.

Local Open Scope string_scope.
Set Warnings "-register-all".

(** ** Python values *)

(** Exceptions that the handlers raise, catch or let through.  The classes
    are declared outside views.py; [PreviewURLNotFound] is raised inside a
    [try] guarded by [except PreviewException] and is one of its subclasses. *)
Inductive exn : Type :=
  | TransferAPIError (code message : string)
  | ValueError (msg : string)
  | PreviewException (code message : string)
  | PreviewURLNotFound (subject : string)
  | ExpiredGlobusToken
  | KeyError (key : string)
  | IndexError
  | TypeError
  | AttributeError
  | OtherException (name : string).

Inductive pyval : Type :=
  | VNone
  | VBool (b : bool)
  | VInt (n : Z)
  | VStr (s : string)
  | VList (l : list pyval)
  | VDict (d : gmap string pyval)
  | VExc (e : exn)
  | VObj (name : string).

(** The components of [urllib.parse.urlparse]'s result that views.py reads. *)
Record ParseResult : Type := mkParseResult {
  pr_netloc : string;
  pr_path : string;
  pr_query : string
}.

Record User : Type := mkUser {
  username : string;
  is_authenticated : bool
}.

(** [GET] is a QueryDict: every key maps to the list of its values.
    [full_path] is what [request.get_full_path()] returns. *)
Record HttpRequest : Type := mkRequest {
  method : string;
  GET : gmap string (list string);
  user : User;
  full_path : string
}.

(** ** External calls *)

Inductive call : Type :=
  | Call_get_setting (name : string)
  | Call_get_search_query (request : HttpRequest)
  | Call_get_search_filters (request : HttpRequest)
  | Call_post_search (index : string) (query filters : pyval) (u : User)
      (page : pyval)
  | Call_messages_error (request : HttpRequest) (message : pyval)
  | Call_get_template (index template : string)
  | Call_render (request : HttpRequest) (template context : pyval)
  | Call_get_subject (index subject : string) (u : User)
  | Call_check_exists (u : User) (ep path : string) (raises : bool)
  | Call_helper_page_transfer (request : HttpRequest) (ep path : string)
      (helper_page_is_dest : bool)
  | Call_reverse (viewname : string) (args : list string)
  | Call_build_absolute_uri (request : HttpRequest) (location : pyval)
  | Call_get_helper_page_url (callback_url cancel_url : pyval)
      (folder_limit file_limit : Z)
  | Call_preview (u : User) (url : string) (scope chunk_size : pyval)
  | Call_revoke_globus_tokens (u : User)
  | Call_django_logout (request : HttpRequest)
  | Call_redirect (to : pyval)
  | Call_log_error (args : list pyval)
  | Call_log_debug (args : list pyval)
  | Call_log_exception (args : list pyval).

(** What lies outside views.py.  [answer] is the outcome of an external call
    in a given session, which the call may read and, [django_logout] apart,
    does not write; [urlsplit] is [urlparse] on a [str]; [str_other] is
    Python's [str()] on values other than scalars and strings;
    [logout_session] is what [django_logout] does to the session;
    [url_not_found_code] is the [code] attribute of a [PreviewURLNotFound]. *)
Record World : Type := mkWorld {
  answer : gmap string pyval → call → exn + pyval;
  urlsplit : string → exn + ParseResult;
  str_other : pyval → string;
  logout_session : gmap string pyval → gmap string pyval;
  url_not_found_code : string
}.

(** ** Python primitives *)

Definition truthy (v : pyval) : bool :=
  match v with
  | VNone => false
  | VBool b => b
  | VInt n => negb (n =? 0)%Z
  | VStr s => negb (s =? "")
  | VList l => match l with [] => false | _ => true end
  | VDict d => negb (bool_decide (size d = 0))
  | VExc _ => true
  | VObj _ => true
  end.

(** [any(vs)] *)
Definition py_any (vs : list pyval) : bool := existsb truthy vs.

(** [s.replace(c, '')] for a one-character [c]. *)
Fixpoint str_remove (c : ascii) (s : string) : string :=
  match s with
  | EmptyString => EmptyString
  | String a s' =>
      if Ascii.eqb a c then str_remove c s' else String a (str_remove c s')
  end.

Definition py_str (W : World) (v : pyval) : string :=
  match v with
  | VNone => "None"
  | VBool true => "True"
  | VBool false => "False"
  | VInt n => pretty n
  | VStr s => s
  | _ => str_other W v
  end.

(** A Python sequence index, negative ones counting from the end. *)
Definition py_index (len : nat) (i : Z) : option nat :=
  if (0 <=? i)%Z
  then (if (i <? Z.of_nat len)%Z then Some (Z.to_nat i) else None)
  else (if (0 <=? Z.of_nat len + i)%Z
        then Some (Z.to_nat (Z.of_nat len + i)) else None).

(** [v[k]] *)
Definition py_getitem (v k : pyval) : exn + pyval :=
  match v, k with
  | VDict d, VStr key =>
      match d !! key with Some x => inr x | None => inl (KeyError key) end
  | VDict d, _ => inl (KeyError "")
  | VList l, VInt i =>
      match py_index (length l) i ≫= (l !!.) with
      | Some x => inr x
      | None => inl IndexError
      end
  | VStr s, VInt i =>
      match py_index (String.length s) i ≫= (λ n, String.get n s) with
      | Some a => inr (VStr (String a EmptyString))
      | None => inl IndexError
      end
  | _, _ => inl TypeError
  end.

(** [v.get(key)] *)
Definition py_get (v : pyval) (key : string) : exn + pyval :=
  match v with
  | VDict d => inr (default VNone (d !! key))
  | _ => inl AttributeError
  end.

(** [key in v.keys()] *)
Definition py_in_keys (key : string) (v : pyval) : exn + bool :=
  match v with
  | VDict d => inr (bool_decide (is_Some (d !! key)))
  | _ => inl AttributeError
  end.

(** [v[key] = x] *)
Definition py_setitem (v : pyval) (key : string) (x : pyval) : exn + pyval :=
  match v with
  | VDict d => inr (VDict (<[key := x]> d))
  | _ => inl TypeError
  end.

(** [q.get(key, dflt)] on a QueryDict: the last value of the key. *)
Definition qd_get (q : gmap string (list string)) (key : string)
    (dflt : pyval) : pyval :=
  match q !! key with
  | Some l => match last l with Some s => VStr s | None => dflt end
  | None => dflt
  end.

(** [urlparse(v)].  On a [str] the components are [str]; on a falsy value of
    another type every component is the empty [bytes]; on a truthy one the
    attempt to decode it raises. *)
Inductive url_parts : Type :=
  | StrParts (r : ParseResult)
  | BytesParts.

Definition urlparse (W : World) (v : pyval) : exn + url_parts :=
  match v with
  | VStr s =>
      match urlsplit W s with
      | inr r => inr (StrParts r)
      | inl e => inl e
      end
  | _ => if truthy v then inl AttributeError else inr BytesParts
  end.

(** ** The handler monad *)

Record state : Type := mkState {
  session : gmap string pyval;
  context : pyval;
  trace : list call
}.

Definition M (A : Type) : Type := state → (exn + A) * state.

Definition raise {A} (e : exn) : M A := λ st, (inl e, st).

#[global] Instance M_ret : MRet M := λ A a st, (inr a, st).
#[global] Instance M_bind : MBind M := λ A B k m st,
  match m st with
  | (inr a, st') => k a st'
  | (inl e, st') => (inl e, st')
  end.

(** A pure Python operation that may raise. *)
Definition lift {A} (r : exn + A) : M A := λ st, (r, st).

(** [try: body except ...: handler]; a handler re-raises what it does not
    catch.  What [body] did to the state before raising stays done. *)
Definition try_except {A} (body : M A) (handler : exn → M A) : M A :=
  λ st, match body st with
        | (inl e, st') => handler e st'
        | r => r
        end.

Definition record (c : call) (st : state) : state :=
  mkState (session st) (context st) (trace st ++ [c]).

(** An external call: it is recorded, and the world answers. *)
Definition ext (W : World) (c : call) : M pyval :=
  λ st, (answer W (session st) c, record c st).

(** The [log] methods return nothing and do not raise. *)
Definition logging (c : call) : M unit := λ st, (inr tt, record c st).

Definition get_context : M pyval := λ st, (inr (context st), st).
Definition set_context (v : pyval) : M unit :=
  λ st, (inr tt, mkState (session st) v (trace st)).

(** [context[key] = x] *)
Definition context_setitem (key : string) (x : pyval) : M unit :=
  c ← get_context; c' ← lift (py_setitem c key x); set_context c'.

(** [request.session[key] = x] *)
Definition session_setitem (key : string) (x : pyval) : M unit :=
  λ st, (inr tt, mkState (<[key := x]> (session st)) (context st) (trace st)).

(** A request starts with the session it carries, no context, no call made. *)
Definition init (s : gmap string pyval) : state := mkState s VNone [].

(** [isinstance(e, PreviewException)] *)
Definition is_preview_exception (e : exn) : bool :=
  match e with
  | PreviewException _ _ | PreviewURLNotFound _ => true
  | _ => false
  end.

(** ** The helpers views.py imports, as external calls *)

Section Handlers.

Variable W : World.

Definition get_setting (name : string) : M pyval :=
  ext W (Call_get_setting name).
Definition get_search_query (request : HttpRequest) : M pyval :=
  ext W (Call_get_search_query request).
Definition get_search_filters (request : HttpRequest) : M pyval :=
  ext W (Call_get_search_filters request).
Definition post_search (index : string) (query filters : pyval) (u : User)
    (page : pyval) : M pyval :=
  ext W (Call_post_search index query filters u page).
Definition messages_error (request : HttpRequest) (message : pyval) : M pyval :=
  ext W (Call_messages_error request message).
Definition get_template (index template : string) : M pyval :=
  ext W (Call_get_template index template).
Definition render (request : HttpRequest) (template context : pyval) : M pyval :=
  ext W (Call_render request template context).
Definition get_subject (index subject : string) (u : User) : M pyval :=
  ext W (Call_get_subject index subject u).
Definition check_exists (u : User) (ep path : string) (raises : bool) : M pyval :=
  ext W (Call_check_exists u ep path raises).
Definition helper_page_transfer (request : HttpRequest) (ep path : string)
    (helper_page_is_dest : bool) : M pyval :=
  ext W (Call_helper_page_transfer request ep path helper_page_is_dest).
Definition reverse (viewname : string) (args : list string) : M pyval :=
  ext W (Call_reverse viewname args).
Definition build_absolute_uri (request : HttpRequest) (location : pyval)
    : M pyval :=
  ext W (Call_build_absolute_uri request location).
Definition get_helper_page_url (callback_url cancel_url : pyval)
    (folder_limit file_limit : Z) : M pyval :=
  ext W (Call_get_helper_page_url callback_url cancel_url folder_limit file_limit).
Definition preview (u : User) (url : string) (scope chunk_size : pyval)
    : M pyval :=
  ext W (Call_preview u url scope chunk_size).
Definition revoke_globus_tokens (u : User) : M pyval :=
  ext W (Call_revoke_globus_tokens u).
Definition redirect (to : pyval) : M pyval :=
  ext W (Call_redirect to).

(** [django_logout(request)] also acts on the session. *)
Definition django_logout (request : HttpRequest) : M pyval :=
  λ st, (answer W (session st) (Call_django_logout request),
         mkState (logout_session W (session st)) (context st)
                 (trace st ++ [Call_django_logout request])).

Definition log_error (args : list pyval) : M unit := logging (Call_log_error args).
Definition log_debug (args : list pyval) : M unit := logging (Call_log_debug args).
Definition log_exception (args : list pyval) : M unit :=
  logging (Call_log_exception args).

(** [x in l] on strings. *)
Definition str_in (x : string) (l : list string) : bool :=
  existsb (String.eqb x) l.

Definition dquote : string := String "034"%char EmptyString.

(** ** search *)

(** [request.get_full_path()] is a [str], on which [urlparse] is the world's
    [urlsplit]. *)

Definition search (request : HttpRequest) (index : string) : M pyval :=
  set_context (VDict ∅);;
  query ← get_search_query request;
  (if truthy query then
     filters ← get_search_filters request;
     results ← post_search index query filters (user request)
                 (qd_get (GET request) "page" (VInt 1));
     context_setitem "search" results;;
     parsed ← lift (urlsplit W (full_path request));
     session_setitem "search"
       (VDict (<["full_query" := VStr (pr_query parsed)]>
               (<["query" := query]>
               (<["filters" := filters]>
               (<["index" := VStr index]> ∅)))));;
     context ← get_context;
     found ← lift (py_getitem context (VStr "search"));
     error ← lift (py_get found "error");
     (if truthy error then messages_error request error;; mret tt else mret tt)
   else mret tt);;
  context ← get_context;
  template ← get_template index "search.html";
  render request template context.

(** ** detail_transfer *)

Definition task_url (task_id : string) : string :=
  "https://www.globus.org/app/activity/" ++ task_id ++ "/overview".

(** The [try] body from [check_exists] on; [ep] has lost its colons. *)
Definition transfer_checked (request : HttpRequest) (index subject : string)
    (ep path : string) : M unit :=
  check_exists (user request) ep path true;;
  (if (method request =? "POST") then
     task ← helper_page_transfer request ep path true;
     task_id ← lift (py_getitem task (VStr "task_id"));
     context_setitem "transfer_link" (VStr (task_url (py_str W task_id)))
   else mret tt);;
  this_url ← reverse "detail-transfer" [index; subject];
  full_url ← build_absolute_uri request this_url;
  link ← get_helper_page_url full_url full_url 1 0;
  context_setitem "helper_page_link" link.

(** The body of the [try] statement.  When [urlparse] gave [bytes], the
    [str] arguments of [ep.replace(':', '')] are rejected. *)
Definition transfer_try (request : HttpRequest) (index subject : string)
    : M unit :=
  context ← get_context;
  has_manifest ← lift (py_in_keys "remote_file_manifest" context);
  (if negb has_manifest then
     raise (ValueError
       ("Please add " ++ dquote ++ "remote_file_manifest" ++ dquote ++ " to "
        ++ dquote ++ "fields" ++ dquote ++ " for " ++ index
        ++ " in order to use transfer."))
   else
     manifest ← lift (py_get context "remote_file_manifest");
     if negb (truthy manifest) then
       raise (ValueError
         (dquote ++ "remote_file_manifest" ++ dquote
          ++ " not found in search metadata for index " ++ index
          ++ ". Cannot start Transfer."))
     else mret tt);;
  manifest ← lift (py_getitem context (VStr "remote_file_manifest"));
  entry ← lift (py_getitem manifest (VInt 0));
  url ← lift (py_getitem entry (VStr "url"));
  parsed ← lift (urlparse W url);
  match parsed with
  | StrParts r =>
      transfer_checked request index subject
        (str_remove ":"%char (pr_netloc r)) (pr_path r)
  | BytesParts => raise TypeError
  end.

(** The [except] clauses, in order. *)
Definition transfer_except (e : exn) : M unit :=
  match e with
  | TransferAPIError code message =>
      context_setitem "detail_error" (VExc e);;
      (if (code =? "AuthenticationFailed") && (message =? "Token is not active")
       then raise ExpiredGlobusToken else mret tt);;
      (if negb (str_in code ["EndpointPermissionDenied"])
       then log_error [VStr "Unexpected Error found during transfer request";
                       VExc e]
       else mret tt)
  | ValueError _ => log_error [VExc e]
  | _ => raise e
  end.

Definition detail_transfer (request : HttpRequest) (index subject : string)
    : M pyval :=
  found ← get_subject index subject (user request);
  set_context found;;
  (if is_authenticated (user request)
   then try_except (transfer_try request index subject) transfer_except
   else mret tt);;
  context ← get_context;
  template ← get_template index "detail-transfer.html";
  render request template context.

(** ** detail_preview *)

Definition preview_try (request : HttpRequest) (subject : string)
    (endpoint url_path : pyval) : M unit :=
  let scope := qd_get (GET request) "scope" VNone in
  (if negb (py_any [endpoint; url_path; scope]) then
     log_error [VStr ("Preview Error: Endpoint, Path, or Scope not given. (Got: "
                      ++ py_str W endpoint ++ ", " ++ py_str W url_path ++ ", "
                      ++ py_str W scope ++ ")")];;
     raise (PreviewURLNotFound subject)
   else mret tt);;
  let url := "https://" ++ py_str W endpoint ++ "/" ++ py_str W url_path in
  log_debug [VStr ("Previewing with url: " ++ url)];;
  size ← get_setting "PREVIEW_DATA_SIZE";
  data ← preview (user request) url scope size;
  context_setitem "preview_data" data.

(** [pe.code] *)
Definition preview_code (e : exn) : string :=
  match e with
  | PreviewException code _ => code
  | PreviewURLNotFound _ => url_not_found_code W
  | _ => ""
  end.

Definition preview_except (e : exn) : M unit :=
  if is_preview_exception e then
    (if str_in (preview_code e) ["UnexpectedError"; "ServerError"]
     then log_exception [VExc e] else mret tt);;
    context_setitem "detail_error" (VExc e);;
    log_debug [VStr ("User error: " ++ py_str W (VExc e))]
  else raise e.

(** [endpoint] and [url_path] default to [None]. *)
Definition detail_preview (request : HttpRequest) (index subject : string)
    (endpoint url_path : option pyval) : M pyval :=
  let endpoint := default VNone endpoint in
  let url_path := default VNone url_path in
  found ← get_subject index subject (user request);
  set_context found;;
  try_except (preview_try request subject endpoint url_path) preview_except;;
  context ← get_context;
  template ← get_template index "detail-preview.html";
  render request template context.

(** ** logout *)

(** [next] defaults to ['/']. *)
Definition logout (request : HttpRequest) (next : option pyval) : M pyval :=
  let next := default (VStr "/") next in
  (if is_authenticated (user request) then
     revoke_globus_tokens (user request);;
     django_logout request;;
     mret tt
   else mret tt);;
  redirect (qd_get (GET request) "next" next).

End Handlers.

(** ** The handlers that do not gate or branch *)

(** [index_selection] renders its template by name, without [get_template]. *)
Definition index_selection (W : World) (request : HttpRequest) : M pyval :=
  indexes ← get_setting W "SEARCH_INDEXES";
  set_context (VDict {[ "search_indexes" := indexes ]});;
  context ← get_context;
  render W request (VStr "index-selection.html") context.

(** [detail]: the arguments of [render] are evaluated from left to right,
    [get_template] before [get_subject]. *)
Definition detail (W : World) (request : HttpRequest) (index subject : string)
    : M pyval :=
  template ← get_template W index "detail-overview.html";
  found ← get_subject W index subject (user request);
  render W request template found.

(** ** The debug handlers *)

(** An [OrderedDict] is kept as the list of its items, and stands in a
    context as the list of the two-element lists [name, value]. *)
Definition ordered_dict (items : list (string * pyval)) : pyval :=
  VList (map (λ item, VList [VStr item.1; item.2]) items).

(** [d.move_to_end(key)] *)
Definition move_to_end (key : string) (items : list (string * pyval))
    : exn + list (string * pyval) :=
  match list_find (λ item, item.1 = key) items with
  | Some (_, item) => inr (filter (λ item, item.1 ≠ key) items ++ [item])%list
  | None => inl (KeyError key)
  end.

Section Debug.

Variable W : World.

(** [json.dumps(data, indent=indent)] *)
Variable dumps : pyval → Z → exn + string.

(** [d.items()] as a list.  A Python dictionary yields its items in the
    order of insertion, which a finite map does not keep. *)
Variable items_of : gmap string pyval → list (string * pyval).

(** [sub.items()] *)
Definition py_items (v : pyval) : exn + list (string * pyval) :=
  match v with
  | VDict d => inr (items_of d)
  | _ => inl AttributeError
  end.

(** [{name: dumps(data, indent=2) for name, data in items}], item by item. *)
Fixpoint dump_items (items : list (string * pyval))
    : exn + list (string * pyval) :=
  match items with
  | [] => inr []
  | (name, data) :: rest =>
      match dumps data 2 with
      | inl e => inl e
      | inr dumped =>
          match dump_items rest with
          | inl e => inl e
          | inr others => inr ((name, VStr dumped) :: others)
          end
      end
  end.

Definition search_debug (request : HttpRequest) (index : string) : M pyval :=
  query ← get_search_query W request;
  filters ← get_search_filters W request;
  results ← post_search W index query filters (user request) (VInt 1);
  facets ← lift (py_getitem results (VStr "facets"));
  dumped ← lift (dumps facets 2);
  set_context (VDict {[ "search" := results; "facets" := VStr dumped ]});;
  context ← get_context;
  template ← get_template W index "search-debug.html";
  render W request template context.

Definition search_debug_detail (request : HttpRequest)
    (index subject : string) : M pyval :=
  sub ← get_subject W index subject (user request);
  set_context sub;;
  items ← lift (py_items sub);
  debug_fields ← lift (dump_items items);
  dfields ← lift (move_to_end "all" debug_fields);
  context_setitem "django_portal_framework_debug_fields" (ordered_dict dfields);;
  sub ← get_context;
  template ← get_template W index "search-debug-detail.html";
  render W request template sub.

End Debug.

(** ** Running a handler *)

Local Open Scope list_scope.

(** The outcome and the final state of a handler started on a fresh request. *)
Definition run {A} (m : M A) (s : gmap string pyval) : (exn + A) * state :=
  m (init s).

(** The handler's last action is [render(request, template, context)], and
    what the handler returns or raises is what that call returns or raises. *)
Definition renders (W : World) (r : (exn + pyval) * state)
    (request : HttpRequest) (template context : pyval) : Prop :=
  ∃ before : list call,
    trace r.2 = before ++ [Call_render request template context] ∧
    r.1 = answer W (session r.2) (Call_render request template context).

(** The calls that reach the transfer service. *)
Definition transfer_service_call (c : call) : bool :=
  match c with
  | Call_check_exists _ _ _ _ => true
  | Call_helper_page_transfer _ _ _ _ => true
  | Call_get_helper_page_url _ _ _ _ => true
  | _ => false
  end.

Definition is_preview_call (c : call) : bool :=
  match c with Call_preview _ _ _ _ => true | _ => false end.

Definition is_post_search_call (c : call) : bool :=
  match c with Call_post_search _ _ _ _ _ => true | _ => false end.

(** ** Vocabulary of the statements *)

(** What [search] stores in the session under ['search']. *)
Definition saved_search (full_query : string) (query filters : pyval)
    (index : string) : pyval :=
  VDict (<["full_query" := VStr full_query]>
        (<["query" := query]>
        (<["filters" := filters]>
        (<["index" := VStr index]> ∅)))).

(** Where [logout] redirects: the ['next'] query parameter, else the [next]
    argument, else ['/']. *)
Definition logout_target (request : HttpRequest) (next : option pyval) : pyval :=
  qd_get (GET request) "next" (default (VStr "/") next).

(** The calls that end the user's login. *)
Definition is_logout_call (c : call) : bool :=
  match c with
  | Call_revoke_globus_tokens _ => true
  | Call_django_logout _ => true
  | _ => false
  end.

(** The state in which the [try] statement of a detail handler starts: the
    subject has been fetched and is the context. *)
Definition fetched (s0 : gmap string pyval) (index subject : string)
    (u : User) (found : pyval) : state :=
  mkState s0 found [Call_get_subject index subject u].

(** The URL that [detail_preview] builds for [preview]. *)
Definition preview_url (W : World) (endpoint url_path : pyval) : string :=
  ("https://" ++ py_str W endpoint ++ "/" ++ py_str W url_path)%string.

(** [key in v] for a dictionary [v]. *)
Definition has_key (key : string) (v : pyval) : bool :=
  match v with
  | VDict d => bool_decide (is_Some (d !! key))
  | _ => false
  end.

(** That an unauthenticated request is never previewed: no [preview] call,
    and no ['preview_data'] in a rendered context. *)
Definition preview_is_gated (W : World) (request : HttpRequest)
    (index subject : string) (endpoint url_path : option pyval)
    (s0 : gmap string pyval) : Prop :=
  is_authenticated (user request) = false →
  let r := run (detail_preview W request index subject endpoint url_path) s0 in
  (∀ c, c ∈ trace r.2 → is_preview_call c = false) ∧
  (∀ template context,
     Call_render request template context ∈ trace r.2 →
     has_key "preview_data" context = false).

(** The endpoint and the path that the first entry of a manifest stands for:
    the network location of its ['url'] without its colons, and its path. *)
Definition transfer_target (W : World) (manifest : pyval)
    : option (string * string) :=
  match py_getitem manifest (VInt 0) with
  | inr entry =>
      match py_getitem entry (VStr "url") with
      | inr (VStr url) =>
          match urlsplit W url with
          | inr parsed =>
              Some (str_remove ":"%char (pr_netloc parsed), pr_path parsed)
          | inl _ => None
          end
      | _ => None
      end
  | inl _ => None
  end.

(** The calls that [transfer_checked] makes after the existence check. *)
Definition transfer_step (request : HttpRequest) (ep path : string)
    (c : call) : Prop :=
  match c with
  | Call_helper_page_transfer rq ep' path' dest =>
      rq = request ∧ ep' = ep ∧ path' = path ∧ dest = true ∧
      method request = "POST"
  | Call_reverse _ _ | Call_build_absolute_uri _ _
  | Call_get_helper_page_url _ _ _ _ => True
  | _ => False
  end.

(** The last lines of [detail_transfer]. *)
Definition render_detail_transfer (W : World) (request : HttpRequest)
    (index : string) : M pyval :=
  context ← get_context;
  template ← get_template W index "detail-transfer.html";
  render W request template context.

(** What [detail_transfer] makes of the outcome of its [try] body. *)
Definition transfer_finish (W : World) (request : HttpRequest)
    (index : string) (body : (exn + unit) * state) : (exn + pyval) * state :=
  match body.1 with
  | inr _ => render_detail_transfer W request index body.2
  | inl e =>
      match transfer_except e body.2 with
      | (inr _, st) => render_detail_transfer W request index st
      | (inl e', st) => (inl e', st)
      end
  end.

(** The error that [detail_transfer] turns into [ExpiredGlobusToken]. *)
Definition token_expired (code message : string) : Prop :=
  code = "AuthenticationFailed" ∧ message = "Token is not active".

(** What the comprehension over the items gives: item by item the same name
    with the dumped value. *)
Definition dumped_item (dumps : pyval → Z → exn + string)
    (item dumped : string * pyval) : Prop :=
  dumped.1 = item.1 ∧ ∃ text, dumps item.2 2%Z = inr text ∧ dumped.2 = VStr text.

(** An argument of [detail_preview] that is left out, [None] or the empty
    string. *)
Definition absent_or_empty (v : option pyval) : Prop :=
  v = None ∨ v = Some VNone ∨ v = Some (VStr "").

(** An argument of [detail_preview] that is a string with something in it. *)
Definition given (v : option pyval) : Prop :=
  ∃ text, v = Some (VStr text) ∧ text ≠ "".

(** The request has no ['scope'] query parameter, or an empty one. *)
Definition scope_absent_or_empty (request : HttpRequest) : Prop :=
  GET request !! "scope" = None ∨
  ∃ values, GET request !! "scope" = Some values ∧
            (last values = None ∨ last values = Some "").

(** The request has a ['scope'] query parameter with something in it. *)
Definition scope_given (request : HttpRequest) (text : string) : Prop :=
  ∃ values, GET request !! "scope" = Some values ∧
            last values = Some text ∧ text ≠ "".

(** [c in s] for a character [c]. *)
Fixpoint str_contains (c : ascii) (s : string) : bool :=
  match s with
  | EmptyString => false
  | String a s' => Ascii.eqb a c || str_contains c s'
  end.

(** The endpoint that a call to the transfer service names. *)
Definition call_endpoint (c : call) : option string :=
  match c with
  | Call_check_exists _ ep _ _ => Some ep
  | Call_helper_page_transfer _ ep _ _ => Some ep
  | _ => None
  end.

(** ** An example portal *)

Module Example.

Definition manifest_url : string := "globus://ddb59aef:6160/share/data.csv".

Definition subject_fields : gmap string pyval :=
  {[ "remote_file_manifest" := VList [VDict {[ "url" := VStr manifest_url ]}] ]}.

Definition urlsplit (s : string) : exn + ParseResult :=
  if s =? manifest_url
  then inr (mkParseResult "ddb59aef:6160" "/share/data.csv" "")
  else if s =? "/search/perfdata/?q=foo*&page=2"
  then inr (mkParseResult "" "/search/perfdata/" "q=foo*&page=2")
  else inr (mkParseResult "" s "").

(** Every helper succeeds. *)
Definition answer (s : gmap string pyval) (c : call) : exn + pyval :=
  match c with
  | Call_get_subject _ _ _ => inr (VDict subject_fields)
  | Call_get_template _ template => inr (VStr template)
  | Call_render _ _ _ => inr (VObj "HttpResponse")
  | Call_redirect _ => inr (VObj "HttpResponseRedirect")
  | Call_get_setting _ => inr (VInt 2048)
  | Call_preview _ _ _ _ => inr (VStr "x,y")
  | Call_get_search_query request => inr (qd_get (GET request) "q" (VStr ""))
  | Call_get_search_filters _ => inr (VList [])
  | Call_post_search _ _ _ _ _ =>
      inr (VDict {[ "search_results" := VList [] ]})
  | Call_helper_page_transfer _ _ _ _ =>
      inr (VDict {[ "task_id" := VStr "4f1e" ]})
  | Call_reverse _ _ => inr (VStr "/detail-transfer/perfdata/run1/")
  | Call_build_absolute_uri _ _ =>
      inr (VStr "https://portal/detail-transfer/perfdata/run1/")
  | Call_get_helper_page_url _ _ _ _ =>
      inr (VStr "https://www.globus.org/app/browse-endpoint")
  | _ => inr VNone
  end.

Definition world : World :=
  mkWorld answer urlsplit (λ _, "<object>") (λ _, ∅) "NoURL".

(** The same portal with other answers to some calls. *)
Definition world_with (f : call → option (exn + pyval)) : World :=
  mkWorld (λ s c, default (answer s c) (f c)) urlsplit (λ _, "<object>")
          (λ _, ∅) "NoURL".

Definition anonymous : User := mkUser "" false.
Definition alice : User := mkUser "alice" true.

Definition get_request (u : User) (q : gmap string (list string)) : HttpRequest :=
  mkRequest "GET" q u "/search/perfdata/?q=foo*&page=2".
Definition post_request (u : User) : HttpRequest :=
  mkRequest "POST" ∅ u "/detail-transfer/perfdata/run1/".

End Example.

(** ** An example of the debug helpers *)

Module DebugExample.

(** A stand-in for [json.dumps] on the values of the example. *)
Definition dumps (v : pyval) (indent : Z) : exn + string :=
  match v with
  | VNone => inr "null"
  | VStr s => inr s
  | VList [] => inr "[]"
  | VDict _ => inr "{}"
  | VExc _ | VObj _ => inl TypeError
  | _ => inr "..."
  end.

Definition items_of (d : gmap string pyval) : list (string * pyval) :=
  map_to_list d.

Definition subject_fields : gmap string pyval :=
  {[ "all" := VDict ∅; "title" := VStr "Run 1" ]}.

Definition world : World :=
  Example.world_with (λ c,
    match c with
    | Call_get_subject _ _ _ => Some (inr (VDict subject_fields))
    | _ => None
    end).

End DebugExample.

(** ** The primitives on small inputs *)

Example str_remove_colon :
  str_remove ":"%char "ddb59aef:6160" = "ddb59aef6160".
Proof. reflexivity. Qed.

Example preview_url_of_none :
  preview_url Example.world VNone (VStr "share/data.csv")
    = "https://None/share/data.csv".
Proof. reflexivity. Qed.

Example qd_get_last_value :
  qd_get {[ "page" := ["2"; "3"] ]} "page" (VInt 1) = VStr "3" ∧
  qd_get {[ "page" := [] ]} "page" (VInt 1) = VInt 1 ∧
  qd_get ∅ "page" (VInt 1) = VInt 1.
Proof. by vm_compute. Qed.

Example py_getitem_examples :
  py_getitem (VList [VInt 7; VInt 8]) (VInt (-1)) = inr (VInt 8) ∧
  py_getitem (VList []) (VInt 0) = inl IndexError ∧
  py_getitem (VStr "abc") (VInt 0) = inr (VStr "a") ∧
  py_getitem (VStr "a") (VStr "url") = inl TypeError ∧
  py_getitem (VDict ∅) (VStr "url") = inl (KeyError "url").
Proof. by vm_compute. Qed.

Example post_starts_a_transfer :
  let request := Example.post_request Example.alice in
  let r := run (detail_transfer Example.world request "perfdata" "run1") ∅ in
  trace r.2 =
    [Call_get_subject "perfdata" "run1" Example.alice;
     Call_check_exists Example.alice "ddb59aef6160" "/share/data.csv" true;
     Call_helper_page_transfer request "ddb59aef6160" "/share/data.csv" true;
     Call_reverse "detail-transfer" ["perfdata"; "run1"];
     Call_build_absolute_uri request (VStr "/detail-transfer/perfdata/run1/");
     Call_get_helper_page_url
       (VStr "https://portal/detail-transfer/perfdata/run1/")
       (VStr "https://portal/detail-transfer/perfdata/run1/") 1 0;
     Call_get_template "perfdata" "detail-transfer.html";
     Call_render request (VStr "detail-transfer.html")
       (VDict (<["helper_page_link" :=
                   VStr "https://www.globus.org/app/browse-endpoint"]>
               (<["transfer_link" :=
                   VStr "https://www.globus.org/app/activity/4f1e/overview"]>
                Example.subject_fields)))].
Proof. reflexivity. Qed.

(** ** Proof steps *)

Ltac unfold_monad :=
  unfold run, init, try_except, lift, raise, logging, ext,
    context_setitem, session_setitem, get_context, set_context, record in *;
  unfold mbind, M_bind, mret, M_ret in *; cbn [fst snd] in *.

Ltac unfold_calls :=
  unfold get_setting, get_search_query, get_search_filters, post_search,
    messages_error, get_template, render, get_subject, check_exists,
    helper_page_transfer, reverse, build_absolute_uri, get_helper_page_url,
    preview, revoke_globus_tokens, redirect, django_logout, log_error,
    log_debug, log_exception in *.

(** Case analysis on what the next scrutinised computation gives. *)
Ltac case_step :=
  match goal with
  | |- context [match ?x with _ => _ end] =>
      lazymatch x with
      | context [match _ with _ => _ end] => fail
      | _ => destruct x eqn:?
      end
  end.

(** ** Membership in a trace *)

(** An event is in a trace given event by event. *)
Ltac trace_elem :=
  repeat first [apply list_elem_of_here | apply list_elem_of_further].

(** A [try] body that raised before any call. *)
Ltac raised_early := split; [reflexivity | eexists; reflexivity].

(** Case analysis on an event [H : c ∈ l] of a trace given event by event. *)
Ltac trace_cases H :=
  repeat (let E := fresh "E" in
          apply elem_of_cons in H as [E|H]; [simplify_eq|]);
  [..|by apply elem_of_nil in H].

(** [renders] from the last event of the trace. *)
Lemma renders_last (W : World) (r : (exn + pyval) * state)
    (request : HttpRequest) (template context : pyval) :
  last (trace r.2) = Some (Call_render request template context) →
  r.1 = answer W (session r.2) (Call_render request template context) →
  renders W r request template context.
Proof.
  intros Hlast Hout. apply last_Some in Hlast as [before Hbefore].
  by exists before.
Qed.

(** ** detail_transfer without authentication *)

(** C2.  When the request's user is not authenticated, [detail_transfer]
    makes no call to the transfer service (no [check_exists], no
    [helper_page_transfer], no [get_helper_page_url]) and leaves the session
    alone; when [get_subject] and [get_template] return, the calls made are
    exactly [get_subject], [get_template] and [render] with the subject that
    [get_subject] returned as context, and the handler's outcome is that of
    [render]. *)
Theorem detail_transfer_unauthenticated (W : World) (request : HttpRequest)
    (index subject : string) (s0 : gmap string pyval) :
  is_authenticated (user request) = false →
  let r := run (detail_transfer W request index subject) s0 in
  (∀ c, c ∈ trace r.2 → transfer_service_call c = false) ∧
  session r.2 = s0 ∧
  (∀ found template,
     answer W s0 (Call_get_subject index subject (user request)) = inr found →
     answer W s0 (Call_get_template index "detail-transfer.html") = inr template →
     trace r.2 = [Call_get_subject index subject (user request);
                  Call_get_template index "detail-transfer.html";
                  Call_render request template found] ∧
     r.1 = answer W s0 (Call_render request template found)).
Proof.
  intros Hanon r. subst r. unfold detail_transfer. rewrite Hanon.
  unfold_calls. unfold_monad. cbn.
  destruct (answer W s0 (Call_get_subject index subject (user request)))
    as [e|found] eqn:Hsub; cbn.
  - split; [|split; [done|by intros ? ? [=]]].
    intros c Hc. trace_cases Hc; done.
  - destruct (answer W s0 (Call_get_template index "detail-transfer.html"))
      as [e|template] eqn:Htpl; cbn.
    + split; [|split; [done|by intros ? ? _ [=]]].
      intros c Hc. trace_cases Hc; done.
    + split; [|split; [done|by intros ? ? [= <-] [= <-]]].
      intros c Hc. trace_cases Hc; done.
Qed.

Lemma detail_transfer_unauthenticated_witness :
  let request := Example.get_request Example.anonymous ∅ in
  let r := run (detail_transfer Example.world request "perfdata" "run1") ∅ in
  trace r.2 = [Call_get_subject "perfdata" "run1" Example.anonymous;
               Call_get_template "perfdata" "detail-transfer.html";
               Call_render request (VStr "detail-transfer.html")
                 (VDict Example.subject_fields)] ∧
  r.1 = inr (VObj "HttpResponse").
Proof.
  intros request.
  destruct (detail_transfer_unauthenticated Example.world request
              "perfdata" "run1" ∅ eq_refl) as (_ & _ & H).
  exact (H (VDict Example.subject_fields) (VStr "detail-transfer.html")
           eq_refl eq_refl).
Defined.

(** ** search *)

(** C6.  When the query that [get_search_query] gives is empty, [search]
    makes no [post_search] call, leaves the session as it was, and, when
    [get_template] returns, calls nothing but [get_search_query],
    [get_template] and [render] with the empty context; its outcome is that
    of [render]. *)
Theorem search_empty_query (W : World) (request : HttpRequest)
    (index : string) (s0 : gmap string pyval) (query : pyval) :
  answer W s0 (Call_get_search_query request) = inr query →
  truthy query = false →
  let r := run (search W request index) s0 in
  (∀ c, c ∈ trace r.2 → is_post_search_call c = false) ∧
  session r.2 = s0 ∧
  (∀ template,
     answer W s0 (Call_get_template index "search.html") = inr template →
     trace r.2 = [Call_get_search_query request;
                  Call_get_template index "search.html";
                  Call_render request template (VDict ∅)] ∧
     r.1 = answer W s0 (Call_render request template (VDict ∅))).
Proof.
  intros Hq Hempty r. subst r. unfold search.
  unfold_calls. unfold_monad. cbn. rewrite Hq. cbn. rewrite Hempty. cbn.
  destruct (answer W s0 (Call_get_template index "search.html"))
    as [e|template] eqn:Htpl; cbn.
  - split; [|split; [done|by intros ? [=]]].
    intros c Hc. trace_cases Hc; done.
  - split; [|split; [done|by intros ? [= <-]]].
    intros c Hc. trace_cases Hc; done.
Qed.

Lemma search_empty_query_witness :
  let request := Example.get_request Example.anonymous ∅ in
  let r := run (search Example.world request "perfdata") ∅ in
  trace r.2 = [Call_get_search_query request;
               Call_get_template "perfdata" "search.html";
               Call_render request (VStr "search.html") (VDict ∅)] ∧
  r.1 = inr (VObj "HttpResponse").
Proof.
  intros request.
  destruct (search_empty_query Example.world request "perfdata" ∅ (VStr "")
              eq_refl eq_refl) as (_ & _ & H).
  exact (H (VStr "search.html") eq_refl).
Defined.

(** C5.  When the query is not empty and [get_search_filters], [post_search]
    and the parse of the requested URL return, the session that [search]
    leaves is the one it found with ['search'] set to the mapping of
    ['full_query'], ['query'], ['filters'] and ['index'], whatever was stored
    there before, and the [post_search] call was made. *)
Theorem search_saves_query (W : World) (request : HttpRequest)
    (index : string) (s0 : gmap string pyval) (query filters results : pyval)
    (parsed : ParseResult) :
  answer W s0 (Call_get_search_query request) = inr query →
  truthy query = true →
  answer W s0 (Call_get_search_filters request) = inr filters →
  answer W s0 (Call_post_search index query filters (user request)
                 (qd_get (GET request) "page" (VInt 1))) = inr results →
  urlsplit W (full_path request) = inr parsed →
  let r := run (search W request index) s0 in
  session r.2 =
    <["search" := saved_search (pr_query parsed) query filters index]> s0 ∧
  session r.2 !! "search" =
    Some (saved_search (pr_query parsed) query filters index) ∧
  (∀ key, key ≠ "search" → session r.2 !! key = s0 !! key) ∧
  Call_post_search index query filters (user request)
    (qd_get (GET request) "page" (VInt 1)) ∈ trace r.2.
Proof.
  intros Hq Htrue Hf Hs Hp r.
  assert (session r.2 =
    <["search" := saved_search (pr_query parsed) query filters index]> s0 ∧
    Call_post_search index query filters (user request)
      (qd_get (GET request) "page" (VInt 1)) ∈ trace r.2) as [Hsess Hcall].
  { subst r. unfold search. unfold_calls. unfold_monad. cbn.
    rewrite Hq. cbn. rewrite Htrue. cbn. rewrite Hf. cbn. rewrite Hs. cbn.
    rewrite Hp. cbn. rewrite lookup_insert_eq. cbn.
    repeat (case_step; cbn); split; try done;
      rewrite ?elem_of_app, !elem_of_cons; tauto. }
  rewrite Hsess. repeat split; [by rewrite lookup_insert_eq| |done].
  intros key Hkey. by rewrite lookup_insert_ne.
Qed.

Lemma search_saves_query_witness :
  let request :=
    Example.get_request Example.alice {[ "q" := ["foo*"]; "page" := ["2"] ]} in
  let r := run (search Example.world request "perfdata")
               {[ "search" := VStr "stale" ]} in
  session r.2 !! "search" =
    Some (saved_search "q=foo*&page=2" (VStr "foo*") (VList []) "perfdata").
Proof.
  intros request.
  refine (proj1 (proj2 (search_saves_query Example.world request "perfdata"
            {[ "search" := VStr "stale" ]} (VStr "foo*") (VList [])
            (VDict {[ "search_results" := VList [] ]})
            (mkParseResult "" "/search/perfdata/" "q=foo*&page=2")
            _ _ _ _ _)));
    vm_compute; reflexivity.
Defined.

(** C7.  When the result of [post_search] carries a truthy ['error'] and the
    calls around it return, [search] passes that error to [messages.error]
    and then renders the search page with the result, error included, under
    ['search'] in the context; the handler returns what [render] returns. *)
Theorem search_reports_error (W : World) (request : HttpRequest)
    (index : string) (s0 : gmap string pyval) (query filters error : pyval)
    (results : gmap string pyval) (parsed : ParseResult)
    (ignored template response : pyval) :
  let page := qd_get (GET request) "page" (VInt 1) in
  let s1 := <["search" := saved_search (pr_query parsed) query filters index]> s0 in
  let context := VDict {[ "search" := VDict results ]} in
  answer W s0 (Call_get_search_query request) = inr query →
  truthy query = true →
  answer W s0 (Call_get_search_filters request) = inr filters →
  answer W s0 (Call_post_search index query filters (user request) page)
    = inr (VDict results) →
  urlsplit W (full_path request) = inr parsed →
  results !! "error" = Some error →
  truthy error = true →
  answer W s1 (Call_messages_error request error) = inr ignored →
  answer W s1 (Call_get_template index "search.html") = inr template →
  answer W s1 (Call_render request template context) = inr response →
  let r := run (search W request index) s0 in
  trace r.2 = [Call_get_search_query request;
               Call_get_search_filters request;
               Call_post_search index query filters (user request) page;
               Call_messages_error request error;
               Call_get_template index "search.html";
               Call_render request template context] ∧
  r.1 = inr response.
Proof.
  intros page s1 context Hq Htrue Hf Hs Hp Herr Hterr Hm Ht Hr r.
  subst r page s1 context. unfold search. unfold_calls. unfold_monad. cbn.
  rewrite Hq. cbn. rewrite Htrue. cbn. rewrite Hf. cbn. rewrite Hs. cbn.
  rewrite Hp. cbn. rewrite lookup_insert_eq. cbn. rewrite Herr. cbn.
  rewrite Hterr. cbn. unfold saved_search in *.
  rewrite Hm. cbn. rewrite Ht. cbn.
  change (<["search":=VDict results]> ∅) with
    ({[ "search" := VDict results ]} : gmap string pyval).
  rewrite Hr. done.
Qed.

Lemma search_reports_error_witness :
  let results : gmap string pyval :=
    {[ "error" := VStr "Search is unavailable" ]} in
  let W := Example.world_with (λ c,
    match c with
    | Call_post_search _ _ _ _ _ => Some (inr (VDict results))
    | _ => None
    end) in
  let request := Example.get_request Example.alice {[ "q" := ["foo*"] ]} in
  let r := run (search W request "perfdata") ∅ in
  trace r.2 = [Call_get_search_query request;
               Call_get_search_filters request;
               Call_post_search "perfdata" (VStr "foo*") (VList [])
                 Example.alice (VInt 1);
               Call_messages_error request (VStr "Search is unavailable");
               Call_get_template "perfdata" "search.html";
               Call_render request (VStr "search.html")
                 (VDict {[ "search" := VDict results ]})] ∧
  r.1 = inr (VObj "HttpResponse").
Proof.
  intros results W request.
  refine (search_reports_error W request "perfdata" ∅ (VStr "foo*") (VList [])
            (VStr "Search is unavailable") results
            (mkParseResult "" "/search/perfdata/" "q=foo*&page=2")
            VNone (VStr "search.html") (VObj "HttpResponse")
            _ _ _ _ _ _ _ _ _ _);
    vm_compute; reflexivity.
Defined.

(** ** logout *)

Lemma logout_target_present (request : HttpRequest) (next : option pyval)
    (values : list string) (value : string) :
  GET request !! "next" = Some values → last values = Some value →
  logout_target request next = VStr value.
Proof. unfold logout_target, qd_get. by intros -> ->. Qed.

Lemma logout_target_absent (request : HttpRequest) (next : option pyval) :
  GET request !! "next" = None →
  logout_target request next = default (VStr "/") next.
Proof. unfold logout_target, qd_get. by intros ->. Qed.

(** C10.  [logout] redirects to the ['next'] query parameter when the request
    has one, otherwise to its [next] argument, which defaults to ['/'].  A
    call that revokes tokens or logs the session out is made only for an
    authenticated user; for such a user the tokens are revoked and, when that
    returns, the session is logged out, and when that returns too, the
    redirect follows.  For a user who is not authenticated the redirect is
    the only call and the session stays as it was. *)
Theorem logout_redirects (W : World) (request : HttpRequest)
    (next : option pyval) (s0 : gmap string pyval) :
  let target := logout_target request next in
  let r := run (logout W request next) s0 in
  (∀ values value, GET request !! "next" = Some values →
     last values = Some value → target = VStr value) ∧
  (GET request !! "next" = None → target = default (VStr "/") next) ∧
  (∀ to, Call_redirect to ∈ trace r.2 → to = target) ∧
  (∀ c, c ∈ trace r.2 → is_logout_call c = true →
     is_authenticated (user request) = true) ∧
  (is_authenticated (user request) = false →
     trace r.2 = [Call_redirect target] ∧
     session r.2 = s0 ∧
     r.1 = answer W s0 (Call_redirect target)) ∧
  (is_authenticated (user request) = true →
     Call_revoke_globus_tokens (user request) ∈ trace r.2 ∧
     ∀ revoked,
       answer W s0 (Call_revoke_globus_tokens (user request)) = inr revoked →
       Call_django_logout request ∈ trace r.2 ∧
       session r.2 = logout_session W s0 ∧
       ∀ logged_out,
         answer W s0 (Call_django_logout request) = inr logged_out →
         trace r.2 = [Call_revoke_globus_tokens (user request);
                      Call_django_logout request;
                      Call_redirect target] ∧
         r.1 = answer W (logout_session W s0) (Call_redirect target)).
Proof.
  intros target r.
  split; [by apply logout_target_present|].
  split; [by apply logout_target_absent|].
  subst r. unfold logout. fold (logout_target request next). fold target.
  unfold_calls. unfold_monad.
  destruct (is_authenticated (user request)) eqn:Hauth; cbn.
  - destruct (answer W s0 (Call_revoke_globus_tokens (user request)))
      as [e|revoked] eqn:Hrev; cbn.
    + repeat split; try done.
      * intros to Hc. trace_cases Hc.
      * apply list_elem_of_singleton; done.
    + destruct (answer W s0 (Call_django_logout request))
        as [e|logged_out] eqn:Hout; cbn.
      * repeat split; try done.
        -- intros to Hc. trace_cases Hc.
        -- apply elem_of_cons; by left.
        -- apply elem_of_cons; right. by apply list_elem_of_singleton.
      * repeat split; try done.
        -- intros to Hc. trace_cases Hc. done.
        -- apply elem_of_cons; by left.
        -- apply elem_of_cons; right. apply elem_of_cons; by left.
  - repeat split; try done.
    + intros to Hc. trace_cases Hc. done.
    + intros c Hc. trace_cases Hc. done.
Qed.

Lemma logout_redirects_witness :
  let request :=
    Example.get_request Example.anonymous {[ "next" := ["/search/"] ]} in
  let r := run (logout Example.world request None) ∅ in
  trace r.2 = [Call_redirect (VStr "/search/")] ∧
  session r.2 = ∅ ∧
  r.1 = inr (VObj "HttpResponseRedirect").
Proof.
  intros request.
  destruct (logout_redirects Example.world request None ∅)
    as (_ & _ & _ & _ & H & _).
  exact (H eq_refl).
Defined.

(** ** detail_preview *)

(** A [PreviewException] leaves the [try] body of [detail_preview] with the
    context and the session as they were. *)
Lemma preview_try_raises (W : World) (request : HttpRequest)
    (subject : string) (endpoint url_path : pyval) (st st1 : state) (e : exn) :
  preview_try W request subject endpoint url_path st = (inl e, st1) →
  is_preview_exception e = true →
  context st1 = context st ∧ session st1 = session st.
Proof.
  unfold preview_try. unfold_calls. unfold_monad. cbn.
  intros Hrun Hexc. revert Hrun.
  repeat (case_step; cbn in *; simplify_eq; try done);
    intros [= <- <-]; done.
Qed.

Lemma absent_or_empty_falsy (v : option pyval) :
  absent_or_empty v → truthy (default VNone v) = false.
Proof. by intros [->|[->| ->]]. Qed.

Lemma given_truthy (v : option pyval) :
  given v → truthy (default VNone v) = true.
Proof.
  intros (text & -> & Htext). cbn. by apply negb_true_iff, String.eqb_neq.
Qed.

Lemma scope_absent_or_empty_falsy (request : HttpRequest) :
  scope_absent_or_empty request →
  truthy (qd_get (GET request) "scope" VNone) = false.
Proof.
  unfold qd_get. by intros [->|(values & -> & [->| ->])].
Qed.

Lemma scope_given_truthy (request : HttpRequest) (text : string) :
  scope_given request text →
  qd_get (GET request) "scope" VNone = VStr text ∧
  truthy (qd_get (GET request) "scope" VNone) = true.
Proof.
  unfold qd_get. intros (values & -> & -> & Htext). split; [done|].
  cbn. by apply negb_true_iff, String.eqb_neq.
Qed.

(** C4.  With the subject fetched, [detail_preview] reports that no preview
    URL was found exactly when the [endpoint] argument, the [url_path]
    argument and the ['scope'] query parameter are all absent or empty: then
    it logs the error, makes no settings or preview call and stores
    [PreviewURLNotFound(subject)] under ['detail_error'].  When one of them
    is given, be it the scope alone, it logs no such error, builds the URL
    from the endpoint and the path and, once [get_setting] returns, calls
    [preview] with it and with the scope.  Whatever [PreviewException]
    leaves the [try] body is stored under ['detail_error'], every other
    entry of the context (['preview_data'] among them) stays what the
    subject had, and when [get_template] returns the page is rendered with
    that context. *)
Theorem detail_preview_errors (W : World) (request : HttpRequest)
    (index subject : string) (endpoint url_path : option pyval)
    (s0 : gmap string pyval) (fields : gmap string pyval) :
  let ep := default VNone endpoint in
  let up := default VNone url_path in
  let scope := qd_get (GET request) "scope" VNone in
  let url := ("https://" ++ py_str W ep ++ "/" ++ py_str W up)%string in
  let st := fetched s0 index subject (user request) (VDict fields) in
  let r := run (detail_preview W request index subject endpoint url_path) s0 in
  answer W s0 (Call_get_subject index subject (user request))
    = inr (VDict fields) →
  (absent_or_empty endpoint → absent_or_empty url_path →
   scope_absent_or_empty request →
     (∃ message, trace r.2 !! 1 = Some (Call_log_error [VStr message])) ∧
     (∀ c, c ∈ trace r.2 →
        is_preview_call c = false ∧ c ≠ Call_get_setting "PREVIEW_DATA_SIZE") ∧
     context r.2 =
       VDict (<["detail_error" := VExc (PreviewURLNotFound subject)]> fields)) ∧
  (given endpoint ∨ given url_path ∨ (∃ text, scope_given request text) →
     (∀ args, Call_log_error args ∉ trace r.2) ∧
     trace r.2 !! 1 =
       Some (Call_log_debug [VStr ("Previewing with url: " ++ url)%string]) ∧
     trace r.2 !! 2 = Some (Call_get_setting "PREVIEW_DATA_SIZE") ∧
     ∀ size,
       answer W s0 (Call_get_setting "PREVIEW_DATA_SIZE") = inr size →
       Call_preview (user request) url scope size ∈ trace r.2) ∧
  (∀ text, scope_given request text → scope = VStr text) ∧
  (∀ pe st1,
     preview_try W request subject ep up st = (inl pe, st1) →
     is_preview_exception pe = true →
     context r.2 = VDict (<["detail_error" := VExc pe]> fields) ∧
     (<["detail_error" := VExc pe]> fields) !! "preview_data"
       = fields !! "preview_data" ∧
     ∀ template,
       answer W s0 (Call_get_template index "detail-preview.html")
         = inr template →
       renders W r request template
         (VDict (<["detail_error" := VExc pe]> fields))).
Proof.
  intros ep up scope url st r Hsub. split; [|split; [|split]].
  - intros Hep Hup Hscope.
    assert (py_any [ep; up; scope] = false) as Hnone.
    { cbn. subst ep up scope.
      by rewrite (absent_or_empty_falsy _ Hep), (absent_or_empty_falsy _ Hup),
        (scope_absent_or_empty_falsy _ Hscope). }
    subst r. unfold detail_preview, preview_try, preview_except.
    fold ep up scope. unfold_calls. unfold_monad. cbn -[py_any].
    rewrite Hsub. cbn -[py_any]. rewrite Hnone. cbn.
    repeat (case_step; cbn); (split; [by eexists|split; [|done]]);
      intros c Hc; rewrite <- ?app_assoc in Hc; cbn in Hc;
      trace_cases Hc; done.
  - intros Hgiven.
    assert (py_any [ep; up; scope] = true) as Hany.
    { cbn. subst ep up scope.
      destruct Hgiven as [Hep|[Hup|[text Hscope]]].
      - by rewrite (given_truthy _ Hep).
      - rewrite (given_truthy _ Hup). by rewrite orb_true_r.
      - destruct (scope_given_truthy _ _ Hscope) as [_ ->].
        by rewrite !orb_true_r. }
    subst r. unfold detail_preview, preview_try, preview_except.
    fold ep up scope. unfold_calls. unfold_monad. cbn -[py_any].
    rewrite Hsub. cbn -[py_any]. rewrite Hany. cbn.
    repeat (case_step; cbn); rewrite <- ?app_assoc; cbn;
      (split; [intros args Hc; trace_cases Hc|]);
      (split; [done|split; [done|]]);
      intros size' ?; simplify_eq;
      rewrite !elem_of_cons; tauto.
  - intros text Hscope. by destruct (scope_given_truthy _ _ Hscope).
  - intros pe st1 Htry Hexc.
    destruct (preview_try_raises _ _ _ _ _ _ _ _ Htry Hexc) as [Hctx Hsess].
    cbn in Hctx, Hsess.
    split; [|split; [by rewrite lookup_insert_ne|]].
    + subst r st. unfold fetched in *. unfold detail_preview. fold ep up.
      unfold_calls. unfold_monad. cbn -[preview_try preview_except].
      rewrite Hsub. cbn -[preview_try preview_except]. rewrite Htry.
      unfold preview_except. rewrite Hexc. unfold_calls. unfold_monad.
      destruct st1 as [s1 c1 t1]. cbn in Hctx, Hsess. subst s1 c1.
      repeat (case_step; cbn); done.
    + intros template Htpl. subst r st. unfold fetched in *.
      unfold renders, detail_preview. fold ep up.
      unfold_calls. unfold_monad. cbn -[preview_try preview_except].
      rewrite Hsub. cbn -[preview_try preview_except]. rewrite Htry.
      unfold preview_except. rewrite Hexc. unfold_calls. unfold_monad.
      destruct st1 as [s1 c1 t1]. cbn in Hctx, Hsess. subst s1 c1.
      destruct (str_in (preview_code W pe) ["UnexpectedError"; "ServerError"]);
        cbn; rewrite Htpl; cbn; by eexists.
Qed.

(** Nothing given; the scope alone; the endpoint alone beside an empty path
    and an empty scope; and a [preview] that raises. *)
Lemma detail_preview_errors_witness :
  let bare := Example.get_request Example.anonymous ∅ in
  let scoped :=
    Example.get_request Example.anonymous {[ "scope" := ["urn:petrel"] ]} in
  let unscoped :=
    Example.get_request Example.anonymous {[ "scope" := [""] ]} in
  let denied := PreviewException "PermissionDenied" "No access" in
  let refusing := Example.world_with (λ c,
    match c with
    | Call_preview _ _ _ _ => Some (inl denied)
    | _ => None
    end) in
  context (run (detail_preview Example.world bare "perfdata" "run1"
                  None None) ∅).2
    = VDict (<["detail_error" := VExc (PreviewURLNotFound "run1")]>
               Example.subject_fields) ∧
  context (run (detail_preview Example.world unscoped "perfdata" "run1"
                  (Some VNone) (Some (VStr ""))) ∅).2
    = VDict (<["detail_error" := VExc (PreviewURLNotFound "run1")]>
               Example.subject_fields) ∧
  Call_preview Example.anonymous "https://None/None" (VStr "urn:petrel")
    (VInt 2048)
    ∈ trace (run (detail_preview Example.world scoped "perfdata" "run1"
                    None None) ∅).2 ∧
  Call_preview Example.anonymous "https://ddb59aef/" (VStr "") (VInt 2048)
    ∈ trace (run (detail_preview Example.world unscoped "perfdata" "run1"
                    (Some (VStr "ddb59aef")) (Some (VStr ""))) ∅).2 ∧
  renders refusing
    (run (detail_preview refusing scoped "perfdata" "run1" None None) ∅)
    scoped (VStr "detail-preview.html")
    (VDict (<["detail_error" := VExc denied]> Example.subject_fields)).
Proof.
  intros bare scoped unscoped denied refusing.
  split; [|split; [|split; [|split]]].
  - destruct (detail_preview_errors Example.world bare "perfdata" "run1"
                None None ∅ Example.subject_fields eq_refl) as (H & _).
    refine (proj2 (proj2 (H _ _ _))); [by left|by left|by left].
  - destruct (detail_preview_errors Example.world unscoped "perfdata" "run1"
                (Some VNone) (Some (VStr "")) ∅ Example.subject_fields
                eq_refl) as (H & _).
    refine (proj2 (proj2 (H _ _ _))).
    + right. by left.
    + right. by right.
    + right. exists [""]. split; [reflexivity|by right].
  - destruct (detail_preview_errors Example.world scoped "perfdata" "run1"
                None None ∅ Example.subject_fields eq_refl) as (_ & H & _).
    refine (proj2 (proj2 (proj2 (H _))) (VInt 2048) eq_refl).
    right. right. exists "urn:petrel", ["urn:petrel"].
    split; [reflexivity|]. split; [reflexivity|discriminate].
  - destruct (detail_preview_errors Example.world unscoped "perfdata" "run1"
                (Some (VStr "ddb59aef")) (Some (VStr "")) ∅
                Example.subject_fields eq_refl) as (_ & H & _).
    refine (proj2 (proj2 (proj2 (H _))) (VInt 2048) eq_refl).
    left. exists "ddb59aef". split; [reflexivity|discriminate].
  - destruct (detail_preview_errors refusing scoped "perfdata" "run1"
                None None ∅ Example.subject_fields eq_refl)
      as (_ & _ & _ & H).
    destruct (H denied
                (preview_try refusing scoped "run1" VNone VNone
                   (fetched ∅ "perfdata" "run1" Example.anonymous
                      (VDict Example.subject_fields))).2
                eq_refl eq_refl) as (_ & _ & Hrenders).
    exact (Hrenders (VStr "detail-preview.html") eq_refl).
Defined.

(** C1, refuted.  An anonymous request that names an endpoint and a path is
    previewed: [preview] is called and its data is rendered. *)
Lemma detail_preview_not_gated :
  ¬ preview_is_gated Example.world
      (Example.get_request Example.anonymous ∅) "perfdata" "run1"
      (Some (VStr "ddb59aef")) (Some (VStr "share/data.csv")) ∅.
Proof.
  intros H. destruct (H eq_refl) as [Hcall _].
  assert (Hin : Call_preview Example.anonymous
                  "https://ddb59aef/share/data.csv" VNone (VInt 2048)
                ∈ trace (run (detail_preview Example.world
                    (Example.get_request Example.anonymous ∅) "perfdata" "run1"
                    (Some (VStr "ddb59aef")) (Some (VStr "share/data.csv")))
                    ∅).2).
  { do 3 apply list_elem_of_further. apply list_elem_of_here. }
  specialize (Hcall _ Hin). discriminate Hcall.
Qed.

(** C1, as the code has it.  [detail_preview] does not look at the user's
    authentication: the request's user, authenticated or not, is handed to
    [preview].  With the subject fetched, no preview is made when none of
    [endpoint], [url_path] and ['scope'] is truthy; when one is and
    [get_setting] returns, [preview] is called with the request's user, and
    when it returns data and [get_template] returns, the page is rendered
    with that data under ['preview_data']. *)
Theorem detail_preview_hands_user_over (W : World) (request : HttpRequest)
    (index subject : string) (endpoint url_path : option pyval)
    (s0 : gmap string pyval) (fields : gmap string pyval) :
  let ep := default VNone endpoint in
  let up := default VNone url_path in
  let scope := qd_get (GET request) "scope" VNone in
  let url := preview_url W ep up in
  let r := run (detail_preview W request index subject endpoint url_path) s0 in
  answer W s0 (Call_get_subject index subject (user request))
    = inr (VDict fields) →
  (py_any [ep; up; scope] = false →
     ∀ c, c ∈ trace r.2 → is_preview_call c = false) ∧
  (py_any [ep; up; scope] = true →
     ∀ size,
       answer W s0 (Call_get_setting "PREVIEW_DATA_SIZE") = inr size →
       Call_preview (user request) url scope size ∈ trace r.2 ∧
       ∀ data template,
         answer W s0 (Call_preview (user request) url scope size) = inr data →
         answer W s0 (Call_get_template index "detail-preview.html")
           = inr template →
         renders W r request template
           (VDict (<["preview_data" := data]> fields))).
Proof.
  intros ep up scope url r Hsub. split.
  - intros Hnone. subst r. unfold detail_preview, preview_try, preview_except.
    fold ep up scope. unfold_calls. unfold_monad. cbn -[py_any].
    rewrite Hsub. cbn -[py_any]. rewrite Hnone. cbn.
    repeat (case_step; cbn);
      intros c Hc; rewrite <- ?app_assoc in Hc; cbn in Hc;
      trace_cases Hc; done.
  - intros Hany size Hsize. subst r.
    unfold detail_preview, preview_try, preview_except.
    fold ep up scope. unfold_calls. unfold_monad. cbn -[py_any].
    rewrite Hsub. cbn -[py_any]. rewrite Hany. cbn. rewrite Hsize. cbn.
    subst url. unfold preview_url.
    destruct (answer W s0 (Call_preview _ _ _ _)) as [e|data] eqn:Hprev; cbn.
    + split; [|by intros ? ? [=]].
      repeat (case_step; cbn); rewrite <- ?app_assoc; cbn; trace_elem.
    + split; [repeat (case_step; cbn); trace_elem|].
      intros ? template [= <-] Htpl. rewrite Htpl. cbn.
      by apply renders_last.
Qed.

Lemma detail_preview_hands_user_over_witness :
  let request := Example.get_request Example.anonymous ∅ in
  let r := run (detail_preview Example.world request "perfdata" "run1"
                  (Some (VStr "ddb59aef")) (Some (VStr "share/data.csv"))) ∅ in
  is_authenticated (user request) = false ∧
  Call_preview Example.anonymous "https://ddb59aef/share/data.csv" VNone
    (VInt 2048) ∈ trace r.2 ∧
  renders Example.world r request (VStr "detail-preview.html")
    (VDict (<["preview_data" := VStr "x,y"]> Example.subject_fields)).
Proof.
  intros request.
  destruct (detail_preview_hands_user_over Example.world request "perfdata"
              "run1" (Some (VStr "ddb59aef")) (Some (VStr "share/data.csv"))
              ∅ Example.subject_fields eq_refl) as [_ H].
  destruct (H eq_refl (VInt 2048) eq_refl) as [Hcall Hrender].
  split; [reflexivity|]. split; [exact Hcall|].
  exact (Hrender (VStr "x,y") (VStr "detail-preview.html") eq_refl eq_refl).
Defined.

(** ** detail_transfer with authentication *)

Lemma py_getitem_first (x : pyval) (l : list pyval) :
  py_getitem (VList (x :: l)) (VInt 0) = inr x.
Proof. reflexivity. Qed.

(** What [transfer_checked] does: the new events start with the existence
    check on the given endpoint and path, a transfer is started on the same
    endpoint and path and only under POST, the context stays a dictionary,
    which gains ['transfer_link'] only under POST, and the session is not
    written. *)
Lemma transfer_checked_spec (W : World) (request : HttpRequest)
    (index subject ep path : string) (st : state) (fields : gmap string pyval) :
  context st = VDict fields →
  let r := transfer_checked W request index subject ep path st in
  ∃ new fields',
    trace r.2 = trace st ++ Call_check_exists (user request) ep path true :: new ∧
    context r.2 = VDict fields' ∧
    session r.2 = session st ∧
    (∀ c, c ∈ new → transfer_step request ep path c) ∧
    (method request ≠ "POST" →
       fields' !! "transfer_link" = fields !! "transfer_link").
Proof.
  intros Hctx r. subst r. destruct st as [s c t]. cbn in Hctx. subst c.
  unfold transfer_checked. unfold_calls. unfold_monad. cbn.
  repeat (case_step; cbn); rewrite <- ?app_assoc; cbn;
    eexists _, _; (split; [reflexivity|]); (split; [reflexivity|]);
    (split; [reflexivity|]);
    (split; [intros ? Hc; trace_cases Hc; cbn;
             repeat split; by apply String.eqb_eq|]);
    intros Hm; rewrite ?lookup_insert_ne by done; try done;
    by apply String.eqb_eq in Heqb.
Qed.

(** What the [try] body does with a dictionary as context: without a usable
    manifest it raises before any call; otherwise it goes on to
    [transfer_checked] with the endpoint and path of the first entry. *)
Lemma transfer_try_spec (W : World) (request : HttpRequest)
    (index subject : string) (st : state) (fields : gmap string pyval) :
  context st = VDict fields →
  let r := transfer_try W request index subject st in
  match fields !! "remote_file_manifest" with
  | Some manifest =>
      if truthy manifest then
        match transfer_target W manifest with
        | Some (ep, path) =>
            r = transfer_checked W request index subject ep path st
        | None => r.2 = st ∧ ∃ e, r.1 = inl e
        end
      else r.2 = st ∧ ∃ msg, r.1 = inl (ValueError msg)
  | None => r.2 = st ∧ ∃ msg, r.1 = inl (ValueError msg)
  end.
Proof.
  intros Hctx r. subst r. destruct st as [s c t]. cbn in Hctx. subst c.
  unfold transfer_try, transfer_target. unfold_monad.
  cbn -[transfer_checked truthy py_getitem].
  destruct (fields !! "remote_file_manifest") as [manifest|] eqn:Hm;
    cbn -[transfer_checked truthy py_getitem]; [|raised_early].
  destruct (truthy manifest) eqn:Ht;
    cbn -[transfer_checked truthy py_getitem]; [|raised_early].
  replace (py_getitem (VDict fields) (VStr "remote_file_manifest"))
    with (inr manifest : exn + pyval) by (cbn [py_getitem]; by rewrite Hm).
  destruct (py_getitem manifest (VInt 0)) as [e|entry];
    cbn -[transfer_checked truthy py_getitem]; [raised_early|].
  destruct (py_getitem entry (VStr "url")) as [e|url];
    cbn -[transfer_checked truthy py_getitem]; [raised_early|].
  unfold urlparse.
  destruct url; cbn -[transfer_checked];
    repeat (case_step; cbn -[transfer_checked]);
    first [reflexivity | raised_early].
Qed.

(** With anything else as context, [context.keys()] fails. *)
Lemma transfer_try_no_dict (W : World) (request : HttpRequest)
    (index subject : string) (st : state) :
  (∀ fields, context st ≠ VDict fields) →
  transfer_try W request index subject st = (inl AttributeError, st).
Proof.
  intros Hctx. destruct st as [s c t]. cbn in Hctx.
  unfold transfer_try. unfold_monad. cbn.
  destruct c; cbn; try done. by destruct (Hctx d).
Qed.

Lemma detail_transfer_authenticated (W : World) (request : HttpRequest)
    (index subject : string) (s0 : gmap string pyval) (found : pyval) :
  is_authenticated (user request) = true →
  answer W s0 (Call_get_subject index subject (user request)) = inr found →
  run (detail_transfer W request index subject) s0 =
    transfer_finish W request index
      (transfer_try W request index subject
         (fetched s0 index subject (user request) found)).
Proof.
  intros Hauth Hsub.
  unfold detail_transfer, transfer_finish, render_detail_transfer, fetched.
  rewrite Hauth. unfold get_subject, run, init, try_except, ext, set_context.
  unfold mbind, M_bind, mret, M_ret. cbn -[transfer_try transfer_except].
  rewrite Hsub. cbn -[transfer_try transfer_except].
  destruct (transfer_try _ _ _ _ _) as [[e|[]] st]; cbn -[transfer_except];
    [|done].
  by destruct (transfer_except e st) as [[e'|[]] st'].
Qed.

Lemma render_detail_transfer_spec (W : World) (request : HttpRequest)
    (index : string) (st : state) :
  let r := render_detail_transfer W request index st in
  session r.2 = session st ∧ context r.2 = context st ∧
  ((∃ e, r.1 = inl e ∧
      answer W (session st) (Call_get_template index "detail-transfer.html")
        = inl e ∧
      trace r.2 = trace st ++ [Call_get_template index "detail-transfer.html"]) ∨
   (∃ template,
      answer W (session st) (Call_get_template index "detail-transfer.html")
        = inr template ∧
      r.1 = answer W (session st) (Call_render request template (context st)) ∧
      trace r.2 = trace st ++ [Call_get_template index "detail-transfer.html";
                               Call_render request template (context st)])).
Proof.
  unfold render_detail_transfer. unfold_calls. unfold_monad. cbn.
  destruct (answer W (session st) (Call_get_template _ _)) as [e|template];
    cbn; (split; [done|split; [done|]]).
  - left. by exists e.
  - right. exists template. by rewrite <- app_assoc.
Qed.

(** The [except] clauses add nothing but log entries to the trace. *)
Lemma transfer_except_spec (e : exn) (st : state) :
  let r := transfer_except e st in
  session r.2 = session st ∧
  ∃ logs, trace r.2 = trace st ++ logs ∧
          ∀ c, c ∈ logs → ∃ args, c = Call_log_error args.
Proof.
  unfold transfer_except. unfold_calls. unfold_monad.
  destruct st as [s c t]. destruct e; cbn;
    repeat (case_step; cbn);
    (split; [done|]);
    first [ exists []; split; [by rewrite app_nil_r|];
            intros ? Hc; by apply elem_of_nil in Hc
          | eexists [_]; split; [reflexivity|];
            intros ? Hc; apply list_elem_of_singleton in Hc; by eexists ].
Qed.

(** After the [try] body, no call to the transfer service is made. *)
Lemma transfer_finish_spec (W : World) (request : HttpRequest)
    (index : string) (body : (exn + unit) * state) :
  let r := transfer_finish W request index body in
  session r.2 = session body.2 ∧
  ∃ extra, trace r.2 = trace body.2 ++ extra ∧
           ∀ c, c ∈ extra → transfer_service_call c = false.
Proof.
  destruct body as [[e|[]] st]; unfold transfer_finish; cbn -[transfer_except].
  - destruct (transfer_except_spec e st) as (Hs & logs & Ht & Hlogs).
    destruct (transfer_except e st) as [[e'|[]] st'] eqn:Hexc;
      cbn in Hs, Ht.
    + split; [done|]. exists logs. split; [done|].
      intros c Hc. by destruct (Hlogs c Hc) as [args ->].
    + destruct (render_detail_transfer_spec W request index st')
        as (Hs' & _ & [(e' & _ & _ & Ht')|(template & _ & _ & Ht')]);
        (split; [congruence|]); rewrite Ht', Ht, <- app_assoc;
        eexists; (split; [reflexivity|]);
        intros c [Hc|Hc]%elem_of_app;
        try (by destruct (Hlogs c Hc) as [args ->]);
        trace_cases Hc; done.
  - destruct (render_detail_transfer_spec W request index st)
      as (Hs' & _ & [(e' & _ & _ & Ht')|(template & _ & _ & Ht')]);
      (split; [done|]); rewrite Ht';
      eexists; (split; [reflexivity|]);
      intros c Hc; trace_cases Hc; done.
Qed.

(** C9.  For an authenticated request whose subject has a truthy
    ['remote_file_manifest'], every [check_exists] and every
    [helper_page_transfer] call of [detail_transfer] carries the endpoint and
    the path of the first manifest entry's ['url'], that is the URL's network
    location without its colons and the URL's path; and when that entry and
    URL are there and parse, the existence check is made on exactly them. *)
Theorem detail_transfer_target (W : World) (request : HttpRequest)
    (index subject : string) (s0 : gmap string pyval)
    (fields : gmap string pyval) (manifest : pyval) :
  is_authenticated (user request) = true →
  answer W s0 (Call_get_subject index subject (user request))
    = inr (VDict fields) →
  fields !! "remote_file_manifest" = Some manifest →
  truthy manifest = true →
  let r := run (detail_transfer W request index subject) s0 in
  (∀ u ep path b,
     Call_check_exists u ep path b ∈ trace r.2 →
     transfer_target W manifest = Some (ep, path)) ∧
  (∀ rq ep path b,
     Call_helper_page_transfer rq ep path b ∈ trace r.2 →
     transfer_target W manifest = Some (ep, path)) ∧
  (∀ ep path,
     transfer_target W manifest = Some (ep, path) →
     Call_check_exists (user request) ep path true ∈ trace r.2) ∧
  (∀ entry rest entry_fields url parsed,
     manifest = VList (entry :: rest) →
     entry = VDict entry_fields →
     entry_fields !! "url" = Some (VStr url) →
     urlsplit W url = inr parsed →
     transfer_target W manifest
       = Some (str_remove ":"%char (pr_netloc parsed), pr_path parsed)).
Proof.
  intros Hauth Hsub Hm Htrue r.
  assert (Hparse : ∀ entry rest entry_fields url parsed,
     manifest = VList (entry :: rest) →
     entry = VDict entry_fields →
     entry_fields !! "url" = Some (VStr url) →
     urlsplit W url = inr parsed →
     transfer_target W manifest
       = Some (str_remove ":"%char (pr_netloc parsed), pr_path parsed)).
  { intros entry rest entry_fields url parsed -> -> Hurl Hsplit.
    unfold transfer_target. rewrite py_getitem_first. cbn.
    by rewrite Hurl, Hsplit. }
  subst r. rewrite (detail_transfer_authenticated _ _ _ _ _ _ Hauth Hsub).
  set (st := fetched s0 index subject (user request) (VDict fields)).
  pose proof (transfer_try_spec W request index subject st fields eq_refl)
    as Hbody. cbn zeta in Hbody. rewrite Hm, Htrue in Hbody.
  destruct (transfer_finish_spec W request index
              (transfer_try W request index subject st))
    as (_ & extra & Htrace & Hextra).
  cbn zeta in Htrace. rewrite Htrace. clear Htrace.
  destruct (transfer_target W manifest) as [[ep0 path0]|] eqn:Htarget.
  - rewrite Hbody.
    destruct (transfer_checked_spec W request index subject ep0 path0 st
                fields eq_refl)
      as (new & fields' & Hnew & _ & _ & Hstep & _).
    cbn zeta in Hnew. rewrite Hnew. subst st. cbn [trace fetched].
    repeat split; [| | |done].
    + intros u ep path b Hc.
      rewrite <- app_assoc in Hc. cbn in Hc.
      apply elem_of_cons in Hc as [[=]|Hc].
      apply elem_of_cons in Hc as [[= -> -> ->]|Hc]; [done|].
      apply elem_of_app in Hc as [Hc|Hc]; [by destruct (Hstep _ Hc)|].
      by specialize (Hextra _ Hc).
    + intros rq ep path b Hc.
      rewrite <- app_assoc in Hc. cbn in Hc.
      apply elem_of_cons in Hc as [[=]|Hc].
      apply elem_of_cons in Hc as [[=]|Hc].
      apply elem_of_app in Hc as [Hc|Hc]; [|by specialize (Hextra _ Hc)].
      by destruct (Hstep _ Hc) as (_ & -> & -> & _).
    + intros ep path [= <- <-]. rewrite <- app_assoc. cbn. trace_elem.
  - destruct Hbody as [Hst _]. rewrite Hst. subst st. cbn [trace fetched].
    repeat split; [| | |done].
    + intros u ep path b Hc. cbn in Hc.
      apply elem_of_cons in Hc as [[=]|Hc]. by specialize (Hextra _ Hc).
    + intros rq ep path b Hc. cbn in Hc.
      apply elem_of_cons in Hc as [[=]|Hc]. by specialize (Hextra _ Hc).
    + by intros ep path [=].
Qed.

Lemma detail_transfer_target_witness :
  let request := Example.post_request Example.alice in
  let r := run (detail_transfer Example.world request "perfdata" "run1") ∅ in
  Call_check_exists Example.alice "ddb59aef6160" "/share/data.csv" true
    ∈ trace r.2.
Proof.
  intros request.
  destruct (detail_transfer_target Example.world request "perfdata" "run1" ∅
              Example.subject_fields
              (VList [VDict {[ "url" := VStr Example.manifest_url ]}])
              eq_refl eq_refl eq_refl eq_refl) as (_ & _ & H & _).
  exact (H "ddb59aef6160" "/share/data.csv" eq_refl).
Defined.

(** ** Errors of the transfer service *)

(** However the [try] body ends, it leaves a dictionary as context when it
    started with one, and the session as it was. *)
Lemma transfer_try_frame (W : World) (request : HttpRequest)
    (index subject : string) (st : state) (fields : gmap string pyval) :
  context st = VDict fields →
  let r := transfer_try W request index subject st in
  session r.2 = session st ∧ ∃ fields', context r.2 = VDict fields'.
Proof.
  intros Hctx r.
  pose proof (transfer_try_spec W request index subject st fields Hctx)
    as Hbody. cbn zeta in Hbody. fold r in Hbody.
  assert (r.2 = st → session r.2 = session st ∧
                     ∃ fields', context r.2 = VDict fields') as Hsame.
  { intros ->. split; [done|by exists fields]. }
  destruct (fields !! "remote_file_manifest") as [manifest|];
    [|by apply Hsame, Hbody].
  destruct (truthy manifest); [|by apply Hsame, Hbody].
  destruct (transfer_target W manifest) as [[ep path]|];
    [|by apply Hsame, Hbody].
  rewrite Hbody.
  destruct (transfer_checked_spec W request index subject ep path st
              fields Hctx) as (new & fields' & _ & Hc & Hs & _).
  split; [done|by exists fields'].
Qed.

Lemma transfer_try_raises (W : World) (request : HttpRequest)
    (index subject : string) (st st1 : state) (code message : string) :
  transfer_try W request index subject st
    = (inl (TransferAPIError code message), st1) →
  session st1 = session st ∧ ∃ fields, context st1 = VDict fields.
Proof.
  intros Htry.
  destruct (context st) as [| | | | |fields| |] eqn:Hctx;
    try (rewrite transfer_try_no_dict in Htry by (by rewrite Hctx);
         discriminate Htry).
  pose proof (transfer_try_frame W request index subject st fields Hctx) as H.
  cbn zeta in H. by rewrite Htry in H.
Qed.

(** C3.  When the [try] body of an authenticated [detail_transfer] request
    raises a [TransferAPIError], the error is stored under ['detail_error']
    of the context.  If its code is ['AuthenticationFailed'] and its message
    ['Token is not active'], the handler raises [ExpiredGlobusToken] and
    makes no further call; otherwise the error is caught: the handler goes on
    to [get_template] and, when that returns, renders the page with the
    context that holds the error. *)
Theorem detail_transfer_api_error (W : World) (request : HttpRequest)
    (index subject : string) (s0 : gmap string pyval) (found : pyval)
    (code message : string) (st1 : state) :
  is_authenticated (user request) = true →
  answer W s0 (Call_get_subject index subject (user request)) = inr found →
  transfer_try W request index subject
    (fetched s0 index subject (user request) found)
    = (inl (TransferAPIError code message), st1) →
  let r := run (detail_transfer W request index subject) s0 in
  ∃ fields,
    context st1 = VDict fields ∧
    context r.2 =
      VDict (<["detail_error" := VExc (TransferAPIError code message)]> fields) ∧
    (token_expired code message →
       r.1 = inl ExpiredGlobusToken ∧ trace r.2 = trace st1) ∧
    (¬ token_expired code message →
       Call_get_template index "detail-transfer.html" ∈ trace r.2 ∧
       ∀ template,
         answer W s0 (Call_get_template index "detail-transfer.html")
           = inr template →
         renders W r request template
           (VDict (<["detail_error" := VExc (TransferAPIError code message)]>
                     fields))).
Proof.
  intros Hauth Hsub Htry r. subst r.
  rewrite (detail_transfer_authenticated _ _ _ _ _ _ Hauth Hsub).
  destruct (transfer_try_raises _ _ _ _ _ _ _ _ Htry) as (Hs & fields & Hctx).
  cbn in Hs. exists fields. split; [done|].
  unfold transfer_finish. rewrite Htry. cbn [fst snd].
  destruct st1 as [s1 c1 t1]. cbn in Hs, Hctx. subst s1 c1.
  unfold transfer_except, render_detail_transfer, token_expired.
  unfold_calls. unfold_monad. cbn.
  destruct (code =? "AuthenticationFailed") eqn:Hcode; cbn.
  - destruct (message =? "Token is not active") eqn:Hmsg; cbn.
    + split; [done|]. split; [done|].
      apply String.eqb_eq in Hcode, Hmsg. intros []. by split.
    + apply String.eqb_neq in Hmsg.
      repeat (case_step; cbn); (split; [done|]);
        (split; [by intros [_ ?]|]); intros _;
        (split; [trace_elem; rewrite ?elem_of_app, ?elem_of_cons; tauto|]);
        intros template' ?; simplify_eq; by apply renders_last; cbn;
        rewrite ?last_snoc.
  - apply String.eqb_neq in Hcode.
    repeat (case_step; cbn); (split; [done|]);
      (split; [by intros [? _]|]); intros _;
      (split; [trace_elem; rewrite ?elem_of_app, ?elem_of_cons; tauto|]);
      intros template' ?; simplify_eq; by apply renders_last; cbn;
      rewrite ?last_snoc.
Qed.

Lemma detail_transfer_api_error_witness :
  let denied := TransferAPIError "EndpointPermissionDenied" "No access" in
  let W := Example.world_with (λ c,
    match c with
    | Call_check_exists _ _ _ _ => Some (inl denied)
    | _ => None
    end) in
  let request := Example.post_request Example.alice in
  let r := run (detail_transfer W request "perfdata" "run1") ∅ in
  renders W r request (VStr "detail-transfer.html")
    (VDict (<["detail_error" := VExc denied]> Example.subject_fields)).
Proof.
  intros denied W request.
  destruct (detail_transfer_api_error W request "perfdata" "run1" ∅
              (VDict Example.subject_fields)
              "EndpointPermissionDenied" "No access"
              (transfer_try W request "perfdata" "run1"
                 (fetched ∅ "perfdata" "run1" Example.alice
                    (VDict Example.subject_fields))).2
              eq_refl eq_refl eq_refl)
    as (fields & Hfields & _ & _ & Hcaught).
  injection Hfields as <-.
  destruct Hcaught as [_ Hrenders]; [by intros [[=] _]|].
  exact (Hrenders (VStr "detail-transfer.html") eq_refl).
Defined.

(** ** detail_transfer on a request that is not a POST *)






(** * Further properties of the handlers *)

(** ** How a run of detail_transfer decomposes *)

Lemma detail_transfer_subject_raises (W : World) (request : HttpRequest)
    (index subject : string) (s0 : gmap string pyval) (e : exn) :
  answer W s0 (Call_get_subject index subject (user request)) = inl e →
  run (detail_transfer W request index subject) s0 =
    (inl e, mkState s0 VNone [Call_get_subject index subject (user request)]).
Proof.
  intros Hsub. unfold detail_transfer. unfold_calls. unfold_monad. cbn.
  by rewrite Hsub.
Qed.

Lemma detail_transfer_anonymous (W : World) (request : HttpRequest)
    (index subject : string) (s0 : gmap string pyval) (found : pyval) :
  is_authenticated (user request) = false →
  answer W s0 (Call_get_subject index subject (user request)) = inr found →
  run (detail_transfer W request index subject) s0 =
    render_detail_transfer W request index
      (fetched s0 index subject (user request) found).
Proof.
  intros Hanon Hsub. unfold detail_transfer, render_detail_transfer, fetched.
  rewrite Hanon. unfold_calls. unfold_monad. cbn. by rewrite Hsub.
Qed.

(** The outcome of the [try] body on any context. *)
Lemma transfer_try_session (W : World) (request : HttpRequest)
    (index subject : string) (st : state) :
  session (transfer_try W request index subject st).2 = session st.
Proof.
  destruct (context st) as [| | | | |fields| |] eqn:Hctx;
    try (by rewrite transfer_try_no_dict by (by rewrite Hctx)).
  by destruct (transfer_try_frame W request index subject st fields Hctx).
Qed.

(** Every call that [detail_transfer] makes to the transfer service follows
    from the first entry of the subject's manifest. *)
Lemma detail_transfer_calls (W : World) (request : HttpRequest)
    (index subject : string) (s0 : gmap string pyval) (c : call) :
  c ∈ trace (run (detail_transfer W request index subject) s0).2 →
  transfer_service_call c = true →
  is_authenticated (user request) = true ∧
  ∃ fields manifest ep path,
    answer W s0 (Call_get_subject index subject (user request))
      = inr (VDict fields) ∧
    fields !! "remote_file_manifest" = Some manifest ∧
    truthy manifest = true ∧
    transfer_target W manifest = Some (ep, path) ∧
    (c = Call_check_exists (user request) ep path true ∨
     transfer_step request ep path c).
Proof.
  intros Hin Hcall.
  destruct (answer W s0 (Call_get_subject index subject (user request)))
    as [e|found] eqn:Hsub.
  { rewrite (detail_transfer_subject_raises _ _ _ _ _ _ Hsub) in Hin.
    cbn in Hin. trace_cases Hin; done. }
  destruct (is_authenticated (user request)) eqn:Hauth.
  2: { rewrite (detail_transfer_anonymous _ _ _ _ _ _ Hauth Hsub) in Hin.
       destruct (render_detail_transfer_spec W request index
                   (fetched s0 index subject (user request) found))
         as (_ & _ & [(e & _ & _ & Ht)|(template & _ & _ & Ht)]);
         rewrite Ht in Hin; cbn in Hin; trace_cases Hin; try done. }
  split; [done|].
  rewrite (detail_transfer_authenticated _ _ _ _ _ _ Hauth Hsub) in Hin.
  set (st := fetched s0 index subject (user request) found) in *.
  destruct (transfer_finish_spec W request index
              (transfer_try W request index subject st))
    as (_ & extra & Htrace & Hextra).
  cbn zeta in Htrace. rewrite Htrace in Hin. clear Htrace.
  apply elem_of_app in Hin as [Hin|Hin];
    [|by rewrite (Hextra _ Hin) in Hcall].
  destruct found as [| | | | |fields| |];
    try (rewrite transfer_try_no_dict in Hin by done;
         cbn in Hin; trace_cases Hin; done).
  pose proof (transfer_try_spec W request index subject st fields eq_refl)
    as Hbody. cbn zeta in Hbody.
  assert (Hquiet : (transfer_try W request index subject st).2 = st → False).
  { intros Hst. rewrite Hst in Hin. cbn in Hin. trace_cases Hin; done. }
  destruct (fields !! "remote_file_manifest") as [manifest|] eqn:Hm;
    [|by destruct Hquiet, Hbody].
  destruct (truthy manifest) eqn:Htrue; [|by destruct Hquiet, Hbody].
  destruct (transfer_target W manifest) as [[ep path]|] eqn:Htarget;
    [|by destruct Hquiet, Hbody].
  exists fields, manifest, ep, path. repeat split; try done.
  rewrite Hbody in Hin.
  destruct (transfer_checked_spec W request index subject ep path st
              fields eq_refl) as (new & fields' & Ht & _ & _ & Hstep & _).
  cbn zeta in Ht. rewrite Ht in Hin. cbn in Hin.
  apply elem_of_cons in Hin as [->|Hin]; [done|].
  apply elem_of_cons in Hin as [->|Hin]; [by left|].
  right. by apply Hstep.
Qed.

(** ** What reaches the transfer service *)

Lemma str_remove_contains (c : ascii) (s : string) :
  str_contains c (str_remove c s) = false.
Proof.
  induction s as [|a s IH]; [done|]. cbn.
  destruct (Ascii.eqb a c) eqn:Ha; [done|]. cbn. by rewrite Ha, IH.
Qed.

Lemma transfer_target_no_colon (W : World) (manifest : pyval)
    (ep path : string) :
  transfer_target W manifest = Some (ep, path) →
  str_contains ":"%char ep = false.
Proof.
  unfold transfer_target. intros Htarget.
  repeat (case_match; simplify_eq). apply str_remove_contains.
Qed.

(** X1.  Whatever the subject, the request and the answers of the helpers,
    an endpoint that [detail_transfer] hands to [check_exists] or to
    [helper_page_transfer] contains no colon. *)
Theorem detail_transfer_endpoint_without_colon (W : World)
    (request : HttpRequest) (index subject : string)
    (s0 : gmap string pyval) (c : call) (ep : string) :
  c ∈ trace (run (detail_transfer W request index subject) s0).2 →
  call_endpoint c = Some ep →
  str_contains ":"%char ep = false.
Proof.
  intros Hin Hep.
  assert (Hcall : transfer_service_call c = true)
    by (by destruct c).
  destruct (detail_transfer_calls W request index subject s0 c Hin Hcall)
    as (_ & fields & manifest & ep' & path & _ & _ & _ & Htarget & Hc).
  apply transfer_target_no_colon in Htarget.
  destruct Hc as [->|Hstep]; [by simplify_eq/=|].
  destruct c; try done. cbn in Hstep, Hep.
  destruct Hstep as (_ & -> & _). by simplify_eq.
Qed.

Lemma detail_transfer_endpoint_without_colon_witness :
  str_contains ":"%char "ddb59aef6160" = false.
Proof.
  refine (detail_transfer_endpoint_without_colon Example.world
            (Example.post_request Example.alice) "perfdata" "run1" ∅
            (Call_helper_page_transfer (Example.post_request Example.alice)
               "ddb59aef6160" "/share/data.csv" true)
            "ddb59aef6160" _ eq_refl).
  do 2 apply list_elem_of_further. apply list_elem_of_here.
Defined.

Lemma transfer_checked_fails (W : World) (request : HttpRequest)
    (index subject ep path : string) (st : state) (e : exn) :
  answer W (session st) (Call_check_exists (user request) ep path true)
    = inl e →
  transfer_checked W request index subject ep path st =
    (inl e, record (Call_check_exists (user request) ep path true) st).
Proof.
  intros Hcheck. unfold transfer_checked. unfold_calls. unfold_monad.
  by rewrite Hcheck.
Qed.

(** X2.  [detail_transfer] starts a transfer only for an authenticated user,
    only on a POST request, and only after the existence check on the same
    endpoint and path has returned without raising: whenever
    [helper_page_transfer] is called, all of that holds, the call carries
    the request itself and marks the helper page as the destination. *)
Theorem detail_transfer_starts_after_check (W : World)
    (request : HttpRequest) (index subject : string)
    (s0 : gmap string pyval) (rq : HttpRequest) (ep path : string)
    (dest : bool) :
  Call_helper_page_transfer rq ep path dest
    ∈ trace (run (detail_transfer W request index subject) s0).2 →
  is_authenticated (user request) = true ∧
  method request = "POST" ∧
  rq = request ∧ dest = true ∧
  ∃ checked,
    answer W s0 (Call_check_exists (user request) ep path true) = inr checked.
Proof.
  intros Hin.
  destruct (detail_transfer_calls W request index subject s0 _ Hin eq_refl)
    as (Hauth & fields & manifest & ep' & path' & Hsub & Hm & Htrue
        & Htarget & [[=]|Hstep]).
  cbn in Hstep. destruct Hstep as (-> & <- & <- & -> & Hpost).
  repeat split; try done.
  destruct (answer W s0 (Call_check_exists (user request) ep path true))
    as [e|checked] eqn:Hcheck; [|by exists checked].
  exfalso.
  rewrite (detail_transfer_authenticated _ _ _ _ _ _ Hauth Hsub) in Hin.
  set (st := fetched s0 index subject (user request) (VDict fields)) in *.
  pose proof (transfer_try_spec W request index subject st fields eq_refl)
    as Hbody. cbn zeta in Hbody. rewrite Hm, Htrue, Htarget in Hbody.
  rewrite (transfer_checked_fails W request index subject ep path st e Hcheck)
    in Hbody.
  destruct (transfer_finish_spec W request index
              (transfer_try W request index subject st))
    as (_ & extra & Htrace & Hextra).
  cbn zeta in Htrace. rewrite Htrace, Hbody in Hin. cbn in Hin.
  apply elem_of_cons in Hin as [[=]|Hin].
  apply elem_of_cons in Hin as [[=]|Hin].
  by specialize (Hextra _ Hin).
Qed.

Lemma detail_transfer_starts_after_check_witness :
  let request := Example.post_request Example.alice in
  is_authenticated (user request) = true ∧
  method request = "POST" ∧
  request = request ∧ true = true ∧
  ∃ checked,
    answer Example.world ∅
      (Call_check_exists (user request) "ddb59aef6160" "/share/data.csv" true)
      = inr checked.
Proof.
  intros request.
  refine (detail_transfer_starts_after_check Example.world request
            "perfdata" "run1" ∅ request "ddb59aef6160" "/share/data.csv"
            true _).
  do 2 apply list_elem_of_further. apply list_elem_of_here.
Defined.

(** X3.  An authenticated request for a subject without a usable manifest
    (no ['remote_file_manifest'] field, or a falsy one) reaches no transfer
    service: the handler logs one [ValueError] and, when [get_template]
    returns, renders the page with the subject exactly as fetched, without a
    ['detail_error']. *)
Theorem detail_transfer_without_manifest (W : World) (request : HttpRequest)
    (index subject : string) (s0 : gmap string pyval)
    (fields : gmap string pyval) (template : pyval) :
  is_authenticated (user request) = true →
  answer W s0 (Call_get_subject index subject (user request))
    = inr (VDict fields) →
  truthy (default VNone (fields !! "remote_file_manifest")) = false →
  answer W s0 (Call_get_template index "detail-transfer.html")
    = inr template →
  let r := run (detail_transfer W request index subject) s0 in
  ∃ msg,
    trace r.2 = [Call_get_subject index subject (user request);
                 Call_log_error [VExc (ValueError msg)];
                 Call_get_template index "detail-transfer.html";
                 Call_render request template (VDict fields)] ∧
    r.1 = answer W s0 (Call_render request template (VDict fields)).
Proof.
  intros Hauth Hsub Hfalsy Htpl r. subst r.
  rewrite (detail_transfer_authenticated _ _ _ _ _ _ Hauth Hsub).
  unfold transfer_finish, transfer_try, render_detail_transfer, fetched.
  unfold_calls. unfold_monad. cbn -[truthy].
  destruct (fields !! "remote_file_manifest") as [manifest|] eqn:Hm;
    cbn -[truthy] in *.
  - rewrite Hfalsy. cbn. rewrite Htpl. cbn. by eexists.
  - rewrite Htpl. cbn. by eexists.
Qed.

Lemma detail_transfer_without_manifest_witness :
  let request := Example.get_request Example.alice ∅ in
  let W := Example.world_with (λ c,
    match c with
    | Call_get_subject _ _ _ =>
        Some (inr (VDict {[ "remote_file_manifest" := VList [] ]}))
    | _ => None
    end) in
  let r := run (detail_transfer W request "perfdata" "run1") ∅ in
  ∃ msg,
    trace r.2 = [Call_get_subject "perfdata" "run1" Example.alice;
                 Call_log_error [VExc (ValueError msg)];
                 Call_get_template "perfdata" "detail-transfer.html";
                 Call_render request (VStr "detail-transfer.html")
                   (VDict {[ "remote_file_manifest" := VList [] ]})] ∧
    r.1 = inr (VObj "HttpResponse").
Proof.
  intros request W.
  exact (detail_transfer_without_manifest W request "perfdata" "run1" ∅
           {[ "remote_file_manifest" := VList [] ]}
           (VStr "detail-transfer.html") eq_refl eq_refl eq_refl eq_refl).
Defined.

(** ** The transfer itself *)

(** X4.  On an authenticated POST for a subject whose manifest gives an
    endpoint and a path, when every helper returns, [detail_transfer] checks
    existence, starts the transfer, builds the helper-page link, and renders
    the subject with ['transfer_link'] set to the activity URL of the task's
    ['task_id'] and ['helper_page_link'] set to the link; these are its only
    calls, in this order. *)
Theorem detail_transfer_post (W : World) (request : HttpRequest)
    (index subject : string) (s0 : gmap string pyval)
    (fields : gmap string pyval) (manifest : pyval) (ep path : string)
    (checked task task_id this_url full_url link template : pyval) :
  is_authenticated (user request) = true →
  method request = "POST" →
  answer W s0 (Call_get_subject index subject (user request))
    = inr (VDict fields) →
  fields !! "remote_file_manifest" = Some manifest →
  truthy manifest = true →
  transfer_target W manifest = Some (ep, path) →
  answer W s0 (Call_check_exists (user request) ep path true) = inr checked →
  answer W s0 (Call_helper_page_transfer request ep path true) = inr task →
  py_getitem task (VStr "task_id") = inr task_id →
  answer W s0 (Call_reverse "detail-transfer" [index; subject]) = inr this_url →
  answer W s0 (Call_build_absolute_uri request this_url) = inr full_url →
  answer W s0 (Call_get_helper_page_url full_url full_url 1 0) = inr link →
  answer W s0 (Call_get_template index "detail-transfer.html") = inr template →
  let r := run (detail_transfer W request index subject) s0 in
  let rendered :=
    VDict (<["helper_page_link" := link]>
          (<["transfer_link" :=
               VStr ("https://www.globus.org/app/activity/"
                     ++ py_str W task_id ++ "/overview")%string]> fields)) in
  trace r.2 = [Call_get_subject index subject (user request);
               Call_check_exists (user request) ep path true;
               Call_helper_page_transfer request ep path true;
               Call_reverse "detail-transfer" [index; subject];
               Call_build_absolute_uri request this_url;
               Call_get_helper_page_url full_url full_url 1 0;
               Call_get_template index "detail-transfer.html";
               Call_render request template rendered] ∧
  r.1 = answer W s0 (Call_render request template rendered).
Proof.
  intros Hauth Hpost Hsub Hm Htrue Htarget Hcheck Htask Hid Hrev Habs Hlink
    Htpl r rendered. subst r rendered.
  rewrite (detail_transfer_authenticated _ _ _ _ _ _ Hauth Hsub).
  pose proof (transfer_try_spec W request index subject
                (fetched s0 index subject (user request) (VDict fields))
                fields eq_refl) as Hbody.
  cbn zeta in Hbody. rewrite Hm, Htrue, Htarget in Hbody. rewrite Hbody.
  apply String.eqb_eq in Hpost.
  unfold transfer_finish, transfer_checked, render_detail_transfer, fetched,
    task_url.
  unfold_calls. unfold_monad. cbn -[py_getitem].
  rewrite Hcheck. cbn -[py_getitem]. rewrite Hpost. cbn -[py_getitem].
  rewrite Htask. cbn -[py_getitem]. rewrite Hid. cbn.
  rewrite Hrev. cbn. rewrite Habs. cbn. rewrite Hlink. cbn.
  rewrite Htpl. cbn. done.
Qed.

Lemma detail_transfer_post_witness :
  let request := Example.post_request Example.alice in
  let r := run (detail_transfer Example.world request "perfdata" "run1") ∅ in
  r.1 = inr (VObj "HttpResponse").
Proof.
  intros request.
  exact (proj2 (detail_transfer_post Example.world request "perfdata" "run1" ∅
           Example.subject_fields
           (VList [VDict {[ "url" := VStr Example.manifest_url ]}])
           "ddb59aef6160" "/share/data.csv" VNone
           (VDict {[ "task_id" := VStr "4f1e" ]}) (VStr "4f1e")
           (VStr "/detail-transfer/perfdata/run1/")
           (VStr "https://portal/detail-transfer/perfdata/run1/")
           (VStr "https://www.globus.org/app/browse-endpoint")
           (VStr "detail-transfer.html")
           eq_refl eq_refl eq_refl eq_refl eq_refl eq_refl eq_refl eq_refl
           eq_refl eq_refl eq_refl eq_refl eq_refl)).
Defined.

(** A failed subscript is none of the errors that [detail_transfer]
    catches. *)
Lemma py_getitem_error (v k : pyval) (e : exn) (st : state) :
  py_getitem v k = inl e → transfer_except e st = (inl e, st).
Proof.
  unfold py_getitem. intros Hget.
  repeat (case_match; simplify_eq); done.
Qed.

(** X5.  When the transfer has been started but the task that
    [helper_page_transfer] returned cannot be read at ['task_id'], the error
    of that subscript leaves the handler: the transfer call has been made,
    the helper-page link is not built and no page is rendered. *)
Theorem detail_transfer_task_without_id (W : World) (request : HttpRequest)
    (index subject : string) (s0 : gmap string pyval)
    (fields : gmap string pyval) (manifest : pyval) (ep path : string)
    (checked task : pyval) (e : exn) :
  is_authenticated (user request) = true →
  method request = "POST" →
  answer W s0 (Call_get_subject index subject (user request))
    = inr (VDict fields) →
  fields !! "remote_file_manifest" = Some manifest →
  truthy manifest = true →
  transfer_target W manifest = Some (ep, path) →
  answer W s0 (Call_check_exists (user request) ep path true) = inr checked →
  answer W s0 (Call_helper_page_transfer request ep path true) = inr task →
  py_getitem task (VStr "task_id") = inl e →
  let r := run (detail_transfer W request index subject) s0 in
  r.1 = inl e ∧
  trace r.2 = [Call_get_subject index subject (user request);
               Call_check_exists (user request) ep path true;
               Call_helper_page_transfer request ep path true] ∧
  context r.2 = VDict fields.
Proof.
  intros Hauth Hpost Hsub Hm Htrue Htarget Hcheck Htask Hid r. subst r.
  rewrite (detail_transfer_authenticated _ _ _ _ _ _ Hauth Hsub).
  pose proof (transfer_try_spec W request index subject
                (fetched s0 index subject (user request) (VDict fields))
                fields eq_refl) as Hbody.
  cbn zeta in Hbody. rewrite Hm, Htrue, Htarget in Hbody. rewrite Hbody.
  apply String.eqb_eq in Hpost.
  unfold transfer_finish, transfer_checked, fetched.
  unfold_calls. unfold_monad. cbn -[py_getitem transfer_except].
  rewrite Hcheck. cbn -[py_getitem transfer_except]. rewrite Hpost.
  cbn -[py_getitem transfer_except]. rewrite Htask.
  cbn -[py_getitem transfer_except]. rewrite Hid.
  cbn -[py_getitem transfer_except].
  by rewrite (py_getitem_error _ _ _ _ Hid).
Qed.

Lemma detail_transfer_task_without_id_witness :
  let request := Example.post_request Example.alice in
  let W := Example.world_with (λ c,
    match c with
    | Call_helper_page_transfer _ _ _ _ => Some (inr (VDict ∅))
    | _ => None
    end) in
  let r := run (detail_transfer W request "perfdata" "run1") ∅ in
  r.1 = inl (KeyError "task_id").
Proof.
  intros request W.
  exact (proj1 (detail_transfer_task_without_id W request "perfdata" "run1" ∅
           Example.subject_fields
           (VList [VDict {[ "url" := VStr Example.manifest_url ]}])
           "ddb59aef6160" "/share/data.csv" VNone (VDict ∅)
           (KeyError "task_id")
           eq_refl eq_refl eq_refl eq_refl eq_refl eq_refl eq_refl eq_refl
           eq_refl)).
Defined.

(** X6.  When the manifest is truthy but its first entry's ['url'] cannot be
    read (the manifest is no sequence, the entry is no mapping, or the entry
    has no ['url']), the error of the subscript leaves the handler before
    any call to the transfer service, and no page is rendered. *)
Theorem detail_transfer_unreadable_manifest (W : World)
    (request : HttpRequest) (index subject : string)
    (s0 : gmap string pyval) (fields : gmap string pyval)
    (manifest : pyval) (e : exn) :
  is_authenticated (user request) = true →
  answer W s0 (Call_get_subject index subject (user request))
    = inr (VDict fields) →
  fields !! "remote_file_manifest" = Some manifest →
  truthy manifest = true →
  (py_getitem manifest (VInt 0) = inl e ∨
   ∃ entry, py_getitem manifest (VInt 0) = inr entry ∧
            py_getitem entry (VStr "url") = inl e) →
  let r := run (detail_transfer W request index subject) s0 in
  r.1 = inl e ∧
  trace r.2 = [Call_get_subject index subject (user request)] ∧
  context r.2 = VDict fields.
Proof.
  intros Hauth Hsub Hm Htrue Hread r. subst r.
  rewrite (detail_transfer_authenticated _ _ _ _ _ _ Hauth Hsub).
  unfold transfer_finish, transfer_try, fetched. unfold_monad.
  cbn -[py_getitem transfer_except truthy].
  rewrite Hm. cbn -[py_getitem transfer_except truthy]. rewrite Htrue.
  cbn -[py_getitem transfer_except truthy].
  replace (py_getitem (VDict fields) (VStr "remote_file_manifest"))
    with (inr manifest : exn + pyval) by (cbn [py_getitem]; by rewrite Hm).
  destruct Hread as [Hfirst|(entry & Hfirst & Hurl)]; rewrite Hfirst;
    cbn -[py_getitem transfer_except truthy]; rewrite ?Hurl;
    cbn -[py_getitem transfer_except truthy];
    by erewrite py_getitem_error.
Qed.

Lemma detail_transfer_unreadable_manifest_witness :
  let request := Example.get_request Example.alice ∅ in
  let fields : gmap string pyval :=
    {[ "remote_file_manifest" := VList [VDict {[ "filename" := VStr "a" ]}] ]} in
  let W := Example.world_with (λ c,
    match c with
    | Call_get_subject _ _ _ => Some (inr (VDict fields))
    | _ => None
    end) in
  let r := run (detail_transfer W request "perfdata" "run1") ∅ in
  r.1 = inl (KeyError "url").
Proof.
  intros request fields W.
  refine (proj1 (detail_transfer_unreadable_manifest W request "perfdata"
           "run1" ∅ fields (VList [VDict {[ "filename" := VStr "a" ]}])
           (KeyError "url") eq_refl eq_refl eq_refl eq_refl _)).
  right. by eexists.
Defined.

(** X7.  A [TransferAPIError] that [detail_transfer] catches is logged as
    unexpected unless its code is ['EndpointPermissionDenied']: after the
    calls of the [try] body come that one log entry (or none, for a denied
    endpoint), [get_template] and [render]. *)
Theorem detail_transfer_logs_unexpected (W : World) (request : HttpRequest)
    (index subject : string) (s0 : gmap string pyval) (found : pyval)
    (code message : string) (st1 : state) (template : pyval) :
  is_authenticated (user request) = true →
  answer W s0 (Call_get_subject index subject (user request)) = inr found →
  transfer_try W request index subject
    (fetched s0 index subject (user request) found)
    = (inl (TransferAPIError code message), st1) →
  ¬ token_expired code message →
  answer W s0 (Call_get_template index "detail-transfer.html")
    = inr template →
  let r := run (detail_transfer W request index subject) s0 in
  let error := VExc (TransferAPIError code message) in
  ∃ fields,
    context st1 = VDict fields ∧
    trace r.2 =
      trace st1
      ++ (if code =? "EndpointPermissionDenied" then []
          else [Call_log_error
                  [VStr "Unexpected Error found during transfer request";
                   error]])
      ++ [Call_get_template index "detail-transfer.html";
          Call_render request template
            (VDict (<["detail_error" := error]> fields))].
Proof.
  intros Hauth Hsub Htry Hfresh Htpl r error. subst r error.
  rewrite (detail_transfer_authenticated _ _ _ _ _ _ Hauth Hsub).
  destruct (transfer_try_raises _ _ _ _ _ _ _ _ Htry) as (Hs & fields & Hctx).
  cbn in Hs. exists fields. split; [done|].
  unfold transfer_finish. rewrite Htry. cbn [fst snd].
  destruct st1 as [s1 c1 t1]. cbn in Hs, Hctx. subst s1 c1.
  unfold transfer_except, render_detail_transfer, token_expired in *.
  unfold_calls. unfold_monad. cbn.
  assert ((code =? "AuthenticationFailed")
          && (message =? "Token is not active") = false) as ->.
  { apply andb_false_iff.
    destruct (code =? "AuthenticationFailed") eqn:Hcode; [|by left].
    destruct (message =? "Token is not active") eqn:Hmsg; [|by right].
    apply String.eqb_eq in Hcode, Hmsg. by destruct Hfresh. }
  cbn. destruct (code =? "EndpointPermissionDenied"); cbn;
    rewrite Htpl; cbn; by rewrite <- ?app_assoc.
Qed.

Lemma detail_transfer_logs_unexpected_witness :
  let failed := TransferAPIError "ServiceUnavailable" "Try again" in
  let W := Example.world_with (λ c,
    match c with
    | Call_check_exists _ _ _ _ => Some (inl failed)
    | _ => None
    end) in
  let request := Example.get_request Example.alice ∅ in
  let r := run (detail_transfer W request "perfdata" "run1") ∅ in
  Call_log_error [VStr "Unexpected Error found during transfer request";
                  VExc failed] ∈ trace r.2.
Proof.
  intros failed W request.
  destruct (detail_transfer_logs_unexpected W request "perfdata" "run1" ∅
              (VDict Example.subject_fields) "ServiceUnavailable" "Try again"
              (transfer_try W request "perfdata" "run1"
                 (fetched ∅ "perfdata" "run1" Example.alice
                    (VDict Example.subject_fields))).2
              (VStr "detail-transfer.html")
              eq_refl eq_refl eq_refl ltac:(by intros [[=] _]) eq_refl)
    as (fields & _ & Htrace).
  cbv zeta. rewrite Htrace. apply elem_of_app. right. apply list_elem_of_here.
Defined.

(** ** What the handlers leave alone *)

Lemma preview_try_session (W : World) (request : HttpRequest)
    (subject : string) (endpoint url_path : pyval) (st : state) :
  session (preview_try W request subject endpoint url_path st).2 = session st.
Proof.
  unfold preview_try. unfold_calls. unfold_monad. cbn.
  by repeat (case_step; cbn).
Qed.

Lemma preview_except_session (W : World) (e : exn) (st : state) :
  session (preview_except W e st).2 = session st.
Proof.
  unfold preview_except. unfold_calls. unfold_monad. destruct st as [s c t].
  cbn. by repeat (case_step; cbn).
Qed.

(** X8.  The detail handlers never write the session: whatever the helpers
    answer and however the handler ends, [detail], [detail_transfer] and
    [detail_preview] end with the session they started with. *)
Theorem detail_handlers_keep_session (W : World) (request : HttpRequest)
    (index subject : string) (endpoint url_path : option pyval)
    (s0 : gmap string pyval) :
  session (run (detail W request index subject) s0).2 = s0 ∧
  session (run (detail_transfer W request index subject) s0).2 = s0 ∧
  session (run (detail_preview W request index subject endpoint url_path)
             s0).2 = s0.
Proof.
  split; [|split].
  - unfold detail. unfold_calls. unfold_monad. cbn.
    by repeat (case_step; cbn).
  - destruct (answer W s0 (Call_get_subject index subject (user request)))
      as [e|found] eqn:Hsub.
    { by rewrite (detail_transfer_subject_raises _ _ _ _ _ _ Hsub). }
    destruct (is_authenticated (user request)) eqn:Hauth.
    + rewrite (detail_transfer_authenticated _ _ _ _ _ _ Hauth Hsub).
      destruct (transfer_finish_spec W request index
                  (transfer_try W request index subject
                     (fetched s0 index subject (user request) found)))
        as (Hs & _).
      cbn zeta in Hs. by rewrite Hs, transfer_try_session.
    + rewrite (detail_transfer_anonymous _ _ _ _ _ _ Hauth Hsub).
      by destruct (render_detail_transfer_spec W request index
                     (fetched s0 index subject (user request) found))
        as (Hs & _).
  - unfold detail_preview, run, init, try_except.
    unfold get_subject, ext, set_context, get_context.
    unfold mbind, M_bind, mret, M_ret.
    cbn -[preview_try preview_except].
    destruct (answer W s0 (Call_get_subject index subject (user request)))
      as [e|found]; cbn -[preview_try preview_except]; [done|].
    match goal with
    | |- context [preview_try ?W ?rq ?sb ?ep ?up ?st] =>
        pose proof (preview_try_session W rq sb ep up st) as Htry;
        destruct (preview_try W rq sb ep up st) as [[e|[]] st1]
    end; cbn -[preview_except] in *.
    + pose proof (preview_except_session W e st1) as Hexc.
      destruct (preview_except W e st1) as [[e'|[]] st2];
        cbn in *; [congruence|].
      unfold_calls. unfold_monad. cbn.
      repeat (case_step; cbn); congruence.
    + unfold_calls. unfold_monad. cbn.
      repeat (case_step; cbn); congruence.
Qed.

(** ** detail_preview beyond its errors of preview *)

(** X9.  [detail_preview] catches nothing but [PreviewException]: when
    [preview] raises any other error, that error leaves the handler, the
    context keeps the subject as fetched, without ['detail_error'], and
    neither [get_template] nor [render] is called. *)
Theorem detail_preview_other_error (W : World) (request : HttpRequest)
    (index subject : string) (endpoint url_path : option pyval)
    (s0 : gmap string pyval) (fields : gmap string pyval)
    (size : pyval) (e : exn) :
  let ep := default VNone endpoint in
  let up := default VNone url_path in
  let scope := qd_get (GET request) "scope" VNone in
  let url := preview_url W ep up in
  answer W s0 (Call_get_subject index subject (user request))
    = inr (VDict fields) →
  py_any [ep; up; scope] = true →
  answer W s0 (Call_get_setting "PREVIEW_DATA_SIZE") = inr size →
  answer W s0 (Call_preview (user request) url scope size) = inl e →
  is_preview_exception e = false →
  let r := run (detail_preview W request index subject endpoint url_path) s0 in
  r.1 = inl e ∧
  context r.2 = VDict fields ∧
  trace r.2 = [Call_get_subject index subject (user request);
               Call_log_debug [VStr ("Previewing with url: " ++ url)%string];
               Call_get_setting "PREVIEW_DATA_SIZE";
               Call_preview (user request) url scope size].
Proof.
  intros ep up scope url Hsub Hany Hsize Hprev Hother r. subst r url.
  unfold preview_url in *.
  unfold detail_preview, preview_try, preview_except.
  fold ep up scope. unfold_calls. unfold_monad. cbn -[py_any].
  rewrite Hsub. cbn -[py_any]. rewrite Hany. cbn. rewrite Hsize. cbn.
  rewrite Hprev. cbn. by rewrite Hother.
Qed.

Lemma detail_preview_other_error_witness :
  let W := Example.world_with (λ c,
    match c with
    | Call_preview _ _ _ _ => Some (inl (OtherException "ConnectionError"))
    | _ => None
    end) in
  let request := Example.get_request Example.alice ∅ in
  let r := run (detail_preview W request "perfdata" "run1"
                  (Some (VStr "ddb59aef")) (Some (VStr "share/data.csv"))) ∅ in
  r.1 = inl (OtherException "ConnectionError").
Proof.
  intros W request.
  exact (proj1 (detail_preview_other_error W request "perfdata" "run1"
           (Some (VStr "ddb59aef")) (Some (VStr "share/data.csv")) ∅
           Example.subject_fields (VInt 2048)
           (OtherException "ConnectionError")
           eq_refl eq_refl eq_refl eq_refl eq_refl)).
Defined.

(** X10.  A [PreviewException] that [preview] raises is logged with its
    traceback exactly when its code is ['UnexpectedError'] or
    ['ServerError']; in every case the user error is logged at debug level
    and the page is rendered with the error under ['detail_error']. *)
Theorem detail_preview_logs_server_errors (W : World)
    (request : HttpRequest) (index subject : string)
    (endpoint url_path : option pyval) (s0 : gmap string pyval)
    (fields : gmap string pyval) (size template : pyval)
    (code message : string) :
  let ep := default VNone endpoint in
  let up := default VNone url_path in
  let scope := qd_get (GET request) "scope" VNone in
  let url := preview_url W ep up in
  let pe := PreviewException code message in
  answer W s0 (Call_get_subject index subject (user request))
    = inr (VDict fields) →
  py_any [ep; up; scope] = true →
  answer W s0 (Call_get_setting "PREVIEW_DATA_SIZE") = inr size →
  answer W s0 (Call_preview (user request) url scope size) = inl pe →
  answer W s0 (Call_get_template index "detail-preview.html")
    = inr template →
  let r := run (detail_preview W request index subject endpoint url_path) s0 in
  trace r.2 =
    [Call_get_subject index subject (user request);
     Call_log_debug [VStr ("Previewing with url: " ++ url)%string];
     Call_get_setting "PREVIEW_DATA_SIZE";
     Call_preview (user request) url scope size]
    ++ (if str_in code ["UnexpectedError"; "ServerError"]
        then [Call_log_exception [VExc pe]] else [])
    ++ [Call_log_debug [VStr ("User error: " ++ py_str W (VExc pe))%string];
        Call_get_template index "detail-preview.html";
        Call_render request template
          (VDict (<["detail_error" := VExc pe]> fields))].
Proof.
  intros ep up scope url pe Hsub Hany Hsize Hprev Htpl r. subst r url pe.
  unfold preview_url in *.
  unfold detail_preview, preview_try, preview_except.
  fold ep up scope. unfold_calls. unfold_monad. cbn -[py_any].
  rewrite Hsub. cbn -[py_any]. rewrite Hany. cbn. rewrite Hsize. cbn.
  rewrite Hprev. cbn.
  destruct ((code =? "UnexpectedError") || ((code =? "ServerError") || false));
    cbn; rewrite Htpl; by cbn.
Qed.

Lemma detail_preview_logs_server_errors_witness :
  let pe := PreviewException "ServerError" "Bad gateway" in
  let W := Example.world_with (λ c,
    match c with
    | Call_preview _ _ _ _ => Some (inl pe)
    | _ => None
    end) in
  let request := Example.get_request Example.alice ∅ in
  let r := run (detail_preview W request "perfdata" "run1"
                  (Some (VStr "ddb59aef")) (Some (VStr "share/data.csv"))) ∅ in
  Call_log_exception [VExc pe] ∈ trace r.2.
Proof.
  intros pe W request. cbv zeta.
  rewrite (detail_preview_logs_server_errors W request "perfdata" "run1"
             (Some (VStr "ddb59aef")) (Some (VStr "share/data.csv")) ∅
             Example.subject_fields (VInt 2048) (VStr "detail-preview.html")
             "ServerError" "Bad gateway"
             eq_refl eq_refl eq_refl eq_refl eq_refl).
  do 4 apply list_elem_of_further. apply list_elem_of_here.
Defined.

(** X11.  A request that gives only a scope is previewed at the URL
    ['https://None/None']: with neither endpoint nor path, the two [None]
    are formatted into the URL that [preview] receives. *)
Theorem detail_preview_scope_alone (W : World) (request : HttpRequest)
    (index subject : string) (s0 : gmap string pyval)
    (fields : gmap string pyval) (values : list string) (scope : string)
    (size : pyval) :
  answer W s0 (Call_get_subject index subject (user request))
    = inr (VDict fields) →
  GET request !! "scope" = Some values →
  last values = Some scope →
  scope ≠ "" →
  answer W s0 (Call_get_setting "PREVIEW_DATA_SIZE") = inr size →
  let r := run (detail_preview W request index subject None None) s0 in
  Call_preview (user request) "https://None/None" (VStr scope) size
    ∈ trace r.2.
Proof.
  intros Hsub Hget Hlast Hscope Hsize r. subst r.
  apply String.eqb_neq in Hscope.
  unfold detail_preview, preview_try, preview_except, qd_get.
  unfold_calls. unfold_monad. cbn. rewrite Hsub. cbn.
  rewrite Hget, Hlast. cbn. rewrite Hscope. cbn. rewrite Hsize. cbn.
  repeat (case_step; cbn); trace_elem.
Qed.

Lemma detail_preview_scope_alone_witness :
  let request :=
    Example.get_request Example.alice {[ "scope" := ["urn:petrel"] ]} in
  let r := run (detail_preview Example.world request "perfdata" "run1"
                  None None) ∅ in
  Call_preview Example.alice "https://None/None" (VStr "urn:petrel")
    (VInt 2048) ∈ trace r.2.
Proof.
  intros request.
  exact (detail_preview_scope_alone Example.world request "perfdata" "run1" ∅
           Example.subject_fields ["urn:petrel"] "urn:petrel" (VInt 2048)
           eq_refl eq_refl eq_refl ltac:(discriminate) eq_refl).
Defined.

(** ** logout and search when a helper raises *)

(** X12.  When revoking the tokens of an authenticated user raises, the
    error leaves [logout]: [django_logout] is not called, the session stays
    as it was and no redirect is made. *)
Theorem logout_revoke_raises (W : World) (request : HttpRequest)
    (next : option pyval) (s0 : gmap string pyval) (e : exn) :
  is_authenticated (user request) = true →
  answer W s0 (Call_revoke_globus_tokens (user request)) = inl e →
  let r := run (logout W request next) s0 in
  r.1 = inl e ∧
  trace r.2 = [Call_revoke_globus_tokens (user request)] ∧
  session r.2 = s0.
Proof.
  intros Hauth Hrev r. subst r. unfold logout. rewrite Hauth.
  unfold_calls. unfold_monad. cbn. by rewrite Hrev.
Qed.

Lemma logout_revoke_raises_witness :
  let W := Example.world_with (λ c,
    match c with
    | Call_revoke_globus_tokens _ => Some (inl (OtherException "AuthAPIError"))
    | _ => None
    end) in
  let request := Example.get_request Example.alice ∅ in
  let r := run (logout W request None) {[ "search" := VStr "kept" ]} in
  r.1 = inl (OtherException "AuthAPIError") ∧
  trace r.2 = [Call_revoke_globus_tokens Example.alice] ∧
  session r.2 = {[ "search" := VStr "kept" ]}.
Proof.
  intros W request.
  exact (logout_revoke_raises W request None {[ "search" := VStr "kept" ]}
           (OtherException "AuthAPIError") eq_refl eq_refl).
Defined.

(** X13.  When [post_search] raises, the error leaves [search] before the
    session is written: the saved search of an earlier request is still
    there, no message is registered and no page is rendered. *)
Theorem search_post_search_raises (W : World) (request : HttpRequest)
    (index : string) (s0 : gmap string pyval) (query filters : pyval)
    (e : exn) :
  let page := qd_get (GET request) "page" (VInt 1) in
  answer W s0 (Call_get_search_query request) = inr query →
  truthy query = true →
  answer W s0 (Call_get_search_filters request) = inr filters →
  answer W s0 (Call_post_search index query filters (user request) page)
    = inl e →
  let r := run (search W request index) s0 in
  r.1 = inl e ∧
  session r.2 = s0 ∧
  trace r.2 = [Call_get_search_query request;
               Call_get_search_filters request;
               Call_post_search index query filters (user request) page].
Proof.
  intros page Hq Htrue Hf Hs r. subst r page. unfold search.
  unfold_calls. unfold_monad. cbn.
  rewrite Hq. cbn. rewrite Htrue. cbn. rewrite Hf. cbn. by rewrite Hs.
Qed.

Lemma search_post_search_raises_witness :
  let W := Example.world_with (λ c,
    match c with
    | Call_post_search _ _ _ _ _ => Some (inl (OtherException "SearchAPIError"))
    | _ => None
    end) in
  let request := Example.get_request Example.alice {[ "q" := ["foo*"] ]} in
  let r := run (search W request "perfdata") {[ "search" := VStr "earlier" ]} in
  r.1 = inl (OtherException "SearchAPIError") ∧
  session r.2 = {[ "search" := VStr "earlier" ]}.
Proof.
  intros W request.
  destruct (search_post_search_raises W request "perfdata"
              {[ "search" := VStr "earlier" ]} (VStr "foo*") (VList [])
              (OtherException "SearchAPIError")
              eq_refl eq_refl eq_refl eq_refl) as (Hout & Hsess & _).
  by split.
Defined.

(** X14.  When the result of [post_search] has no truthy ['error'], [search]
    registers no message: after the search call come only [get_template]
    and [render], with the result under ['search'] as the whole context. *)
Theorem search_without_error (W : World) (request : HttpRequest)
    (index : string) (s0 : gmap string pyval) (query filters : pyval)
    (results : gmap string pyval) (parsed : ParseResult) (template : pyval) :
  let page := qd_get (GET request) "page" (VInt 1) in
  let s1 := <["search" := saved_search (pr_query parsed) query filters index]> s0 in
  let context := VDict {[ "search" := VDict results ]} in
  answer W s0 (Call_get_search_query request) = inr query →
  truthy query = true →
  answer W s0 (Call_get_search_filters request) = inr filters →
  answer W s0 (Call_post_search index query filters (user request) page)
    = inr (VDict results) →
  urlsplit W (full_path request) = inr parsed →
  truthy (default VNone (results !! "error")) = false →
  answer W s1 (Call_get_template index "search.html") = inr template →
  let r := run (search W request index) s0 in
  trace r.2 = [Call_get_search_query request;
               Call_get_search_filters request;
               Call_post_search index query filters (user request) page;
               Call_get_template index "search.html";
               Call_render request template context] ∧
  r.1 = answer W s1 (Call_render request template context).
Proof.
  intros page s1 context Hq Htrue Hf Hs Hp Herr Ht r.
  subst r page s1 context. unfold search. unfold_calls. unfold_monad.
  cbn -[truthy].
  rewrite Hq. cbn -[truthy]. rewrite Htrue. cbn -[truthy].
  rewrite Hf. cbn -[truthy]. rewrite Hs. cbn -[truthy].
  rewrite Hp. cbn -[truthy]. rewrite lookup_insert_eq. cbn -[truthy].
  rewrite Herr. cbn. unfold saved_search in *. rewrite Ht. cbn.
  by change (<["search":=VDict results]> ∅) with
    ({[ "search" := VDict results ]} : gmap string pyval).
Qed.

Lemma search_without_error_witness :
  let request := Example.get_request Example.alice {[ "q" := ["foo*"] ]} in
  let r := run (search Example.world request "perfdata") ∅ in
  trace r.2 = [Call_get_search_query request;
               Call_get_search_filters request;
               Call_post_search "perfdata" (VStr "foo*") (VList [])
                 Example.alice (VInt 1);
               Call_get_template "perfdata" "search.html";
               Call_render request (VStr "search.html")
                 (VDict {[ "search" :=
                            VDict {[ "search_results" := VList [] ]} ]})] ∧
  r.1 = inr (VObj "HttpResponse").
Proof.
  intros request.
  refine (search_without_error Example.world request "perfdata" ∅
            (VStr "foo*") (VList []) {[ "search_results" := VList [] ]}
            (mkParseResult "" "/search/perfdata/" "q=foo*&page=2")
            (VStr "search.html") _ _ _ _ _ _ _);
    vm_compute; reflexivity.
Defined.

(** ** detail *)

(** X15.  [detail] asks for the template before it fetches the subject:
    when [get_template] raises, [get_subject] is never called; when both
    return, the subject is rendered as fetched, and these three calls are
    all that [detail] makes. *)
Theorem detail_template_first (W : World) (request : HttpRequest)
    (index subject : string) (s0 : gmap string pyval) :
  let r := run (detail W request index subject) s0 in
  (∀ e,
     answer W s0 (Call_get_template index "detail-overview.html") = inl e →
     r.1 = inl e ∧
     trace r.2 = [Call_get_template index "detail-overview.html"]) ∧
  (∀ template found,
     answer W s0 (Call_get_template index "detail-overview.html")
       = inr template →
     answer W s0 (Call_get_subject index subject (user request)) = inr found →
     trace r.2 = [Call_get_template index "detail-overview.html";
                  Call_get_subject index subject (user request);
                  Call_render request template found] ∧
     r.1 = answer W s0 (Call_render request template found)).
Proof.
  intros r. subst r. unfold detail. unfold_calls. unfold_monad. cbn.
  split.
  - by intros e ->.
  - intros template found -> . cbn. by intros ->.
Qed.

Lemma detail_template_first_witness :
  let W := Example.world_with (λ c,
    match c with
    | Call_get_template _ _ => Some (inl (OtherException "TemplateSyntaxError"))
    | _ => None
    end) in
  let r := run (detail W (Example.get_request Example.anonymous ∅)
                  "perfdata" "run1") ∅ in
  r.1 = inl (OtherException "TemplateSyntaxError") ∧
  trace r.2 = [Call_get_template "perfdata" "detail-overview.html"].
Proof.
  intros W.
  exact (proj1 (detail_template_first W
                  (Example.get_request Example.anonymous ∅)
                  "perfdata" "run1" ∅)
           (OtherException "TemplateSyntaxError") eq_refl).
Defined.

(** X16.  To a user who is not authenticated, the transfer page shows what
    the overview page shows: when the helpers return, [detail] and
    [detail_transfer] end by rendering the same context, the subject as
    [get_subject] gave it, each with its own template. *)
Theorem detail_transfer_anonymous_as_detail (W : World)
    (request : HttpRequest) (index subject : string)
    (s0 : gmap string pyval) (found overview transfer : pyval) :
  is_authenticated (user request) = false →
  answer W s0 (Call_get_subject index subject (user request)) = inr found →
  answer W s0 (Call_get_template index "detail-overview.html")
    = inr overview →
  answer W s0 (Call_get_template index "detail-transfer.html")
    = inr transfer →
  last (trace (run (detail W request index subject) s0).2)
    = Some (Call_render request overview found) ∧
  last (trace (run (detail_transfer W request index subject) s0).2)
    = Some (Call_render request transfer found).
Proof.
  intros Hanon Hsub Ho Ht. split.
  - unfold detail. unfold_calls. unfold_monad. cbn.
    rewrite Ho. cbn. by rewrite Hsub.
  - rewrite (detail_transfer_anonymous _ _ _ _ _ _ Hanon Hsub).
    unfold render_detail_transfer, fetched. unfold_calls. unfold_monad. cbn.
    by rewrite Ht.
Qed.

Lemma detail_transfer_anonymous_as_detail_witness :
  let request := Example.get_request Example.anonymous ∅ in
  last (trace (run (detail Example.world request "perfdata" "run1") ∅).2)
    = Some (Call_render request (VStr "detail-overview.html")
              (VDict Example.subject_fields)) ∧
  last (trace (run (detail_transfer Example.world request "perfdata" "run1")
                 ∅).2)
    = Some (Call_render request (VStr "detail-transfer.html")
              (VDict Example.subject_fields)).
Proof.
  intros request.
  exact (detail_transfer_anonymous_as_detail Example.world request
           "perfdata" "run1" ∅ (VDict Example.subject_fields)
           (VStr "detail-overview.html") (VStr "detail-transfer.html")
           eq_refl eq_refl eq_refl eq_refl).
Defined.

(** ** search_debug *)

(** X17.  [search_debug] always asks for the first page and searches even
    with an empty query: every [post_search] call it makes carries page
    [1], whatever ['page'] the request has, and is made as soon as
    [get_search_query] and [get_search_filters] return, whatever the query.
    It never writes the session and registers no message. *)
Theorem search_debug_first_page (W : World) (dumps : pyval → Z → exn + string)
    (request : HttpRequest) (index : string) (s0 : gmap string pyval) :
  let r := run (search_debug W dumps request index) s0 in
  session r.2 = s0 ∧
  (∀ idx query filters u page,
     Call_post_search idx query filters u page ∈ trace r.2 → page = VInt 1) ∧
  (∀ rq message, Call_messages_error rq message ∉ trace r.2) ∧
  (∀ query filters,
     answer W s0 (Call_get_search_query request) = inr query →
     answer W s0 (Call_get_search_filters request) = inr filters →
     Call_post_search index query filters (user request) (VInt 1)
       ∈ trace r.2).
Proof.
  intros r. subst r. unfold search_debug. unfold_calls. unfold_monad. cbn.
  repeat (case_step; cbn);
    (split; [done|]);
    (split; [intros ? ? ? ? ? Hc; trace_cases Hc; done|]);
    (split; [intros ? ? Hc; trace_cases Hc|]);
    intros ? ? ? ?; simplify_eq; trace_elem.
Qed.

Lemma search_debug_first_page_witness :
  let request :=
    Example.get_request Example.anonymous {[ "page" := ["7"] ]} in
  Call_post_search "perfdata" (VStr "") (VList []) Example.anonymous (VInt 1)
    ∈ trace (run (search_debug Example.world DebugExample.dumps request
                    "perfdata") ∅).2.
Proof.
  intros request.
  destruct (search_debug_first_page Example.world DebugExample.dumps request
              "perfdata" ∅) as (_ & _ & _ & H).
  exact (H (VStr "") (VList []) eq_refl eq_refl).
Defined.

(** X18.  When the result of [post_search] is a mapping without ['facets'],
    [search_debug] raises [KeyError] for that key after the search call and
    renders nothing. *)
Theorem search_debug_without_facets (W : World)
    (dumps : pyval → Z → exn + string) (request : HttpRequest)
    (index : string) (s0 : gmap string pyval) (query filters : pyval)
    (results : gmap string pyval) :
  answer W s0 (Call_get_search_query request) = inr query →
  answer W s0 (Call_get_search_filters request) = inr filters →
  answer W s0 (Call_post_search index query filters (user request) (VInt 1))
    = inr (VDict results) →
  results !! "facets" = None →
  let r := run (search_debug W dumps request index) s0 in
  r.1 = inl (KeyError "facets") ∧
  trace r.2 = [Call_get_search_query request;
               Call_get_search_filters request;
               Call_post_search index query filters (user request) (VInt 1)].
Proof.
  intros Hq Hf Hs Hnone r. subst r. unfold search_debug.
  unfold_calls. unfold_monad. cbn.
  rewrite Hq. cbn. rewrite Hf. cbn. rewrite Hs. cbn. by rewrite Hnone.
Qed.

Lemma search_debug_without_facets_witness :
  let request := Example.get_request Example.anonymous ∅ in
  let r := run (search_debug Example.world DebugExample.dumps request
                  "perfdata") ∅ in
  r.1 = inl (KeyError "facets").
Proof.
  intros request.
  exact (proj1 (search_debug_without_facets Example.world DebugExample.dumps
                  request "perfdata" ∅ (VStr "") (VList [])
                  {[ "search_results" := VList [] ]}
                  eq_refl eq_refl eq_refl eq_refl)).
Defined.

(** ** search_debug_detail *)

Lemma dump_items_spec (dumps : pyval → Z → exn + string)
    (items dumped : list (string * pyval)) :
  dump_items dumps items = inr dumped →
  Forall2 (dumped_item dumps) items dumped.
Proof.
  revert dumped. induction items as [|[name data] rest IH]; intros dumped; cbn.
  - intros [= <-]. constructor.
  - destruct (dumps data 2%Z) as [e|text] eqn:Hdump; [done|].
    destruct (dump_items dumps rest) as [e|others]; [done|].
    intros [= <-]. constructor; [|by apply IH].
    split; [done|]. by exists text.
Qed.

Lemma dump_items_names (dumps : pyval → Z → exn + string)
    (items dumped : list (string * pyval)) :
  dump_items dumps items = inr dumped → dumped.*1 = items.*1.
Proof.
  intros Hall%dump_items_spec.
  induction Hall as [|item d items dumped [Hname _] _ IH]; [done|].
  cbn. by rewrite Hname, IH.
Qed.

Lemma move_to_end_missing (key : string) (items : list (string * pyval)) :
  key ∉ items.*1 → move_to_end key items = inl (KeyError key).
Proof.
  intros Hmissing. unfold move_to_end.
  destruct (list_find _ items) as [[i item]|] eqn:Hfind; [|done].
  apply list_find_Some in Hfind as (Hi & Hkey & _).
  destruct Hmissing. rewrite <- Hkey.
  apply list_elem_of_fmap_2. by eapply list_elem_of_lookup_2.
Qed.

Lemma move_to_end_found (key : string) (items : list (string * pyval)) :
  key ∈ items.*1 → ∃ moved, move_to_end key items = inr moved.
Proof.
  intros (item & Hname & Hin)%list_elem_of_fmap. unfold move_to_end.
  destruct (list_find_elem_of (λ item, item.1 = key) items item Hin)
    as [[i found] Hfind]; [done|].
  rewrite Hfind. by eexists.
Qed.

Lemma move_to_end_present (key : string) (items moved : list (string * pyval)) :
  move_to_end key items = inr moved →
  ∃ item, item ∈ items ∧ item.1 = key ∧ last moved = Some item ∧
          ∀ name, name ∈ moved.*1 ↔ name ∈ items.*1.
Proof.
  unfold move_to_end.
  destruct (list_find _ items) as [[i item]|] eqn:Hfind; [|done].
  intros [= <-]. apply list_find_Some in Hfind as (Hi & Hkey & _).
  apply list_elem_of_lookup_2 in Hi.
  exists item. repeat split; [done|done|by rewrite last_snoc| |].
  - rewrite fmap_app, elem_of_app.
    intros [(other & -> & Hin%list_elem_of_filter)%list_elem_of_fmap|Hin].
    + apply list_elem_of_fmap_2. by destruct Hin.
    + apply list_elem_of_singleton in Hin. rewrite Hin.
      by apply list_elem_of_fmap_2.
  - intros (other & -> & Hin)%list_elem_of_fmap.
    rewrite fmap_app, elem_of_app.
    destruct (decide (other.1 = key)) as [Hother|Hother].
    + right. cbn. rewrite Hother, <- Hkey. apply list_elem_of_here.
    + left. apply list_elem_of_fmap_2. by apply list_elem_of_filter.
Qed.

(** X19.  A subject without an ['all'] field has no debug page:
    [search_debug_detail] raises right after fetching it (the error of
    [json.dumps] if a field cannot be dumped, otherwise [KeyError] for
    ['all']) and calls neither [get_template] nor [render]. *)
Theorem search_debug_detail_without_all (W : World)
    (dumps : pyval → Z → exn + string)
    (items_of : gmap string pyval → list (string * pyval))
    (request : HttpRequest) (index subject : string)
    (s0 : gmap string pyval) (fields : gmap string pyval) :
  (∀ name data, (name, data) ∈ items_of fields ↔ fields !! name = Some data) →
  answer W s0 (Call_get_subject index subject (user request))
    = inr (VDict fields) →
  fields !! "all" = None →
  let r := run (search_debug_detail W dumps items_of request index subject)
               s0 in
  r.1 = match dump_items dumps (items_of fields) with
        | inl e => inl e
        | inr _ => inl (KeyError "all")
        end ∧
  trace r.2 = [Call_get_subject index subject (user request)] ∧
  context r.2 = VDict fields.
Proof.
  intros Hitems Hsub Hnone r. subst r. unfold search_debug_detail, py_items.
  unfold_calls. unfold_monad. cbn -[move_to_end]. rewrite Hsub.
  cbn -[move_to_end].
  destruct (dump_items dumps (items_of fields)) as [e|dumped] eqn:Hdump;
    cbn -[move_to_end]; [done|].
  rewrite move_to_end_missing; [done|].
  rewrite (dump_items_names _ _ _ Hdump).
  intros ([name data] & Hname & Hin)%list_elem_of_fmap. cbn in Hname.
  subst name. apply Hitems in Hin. congruence.
Qed.

Lemma search_debug_detail_without_all_witness :
  let request := Example.get_request Example.anonymous ∅ in
  let r := run (search_debug_detail Example.world DebugExample.dumps
                  DebugExample.items_of request "perfdata" "run1") ∅ in
  r.1 = inl (KeyError "all") ∧
  trace r.2 = [Call_get_subject "perfdata" "run1" Example.anonymous].
Proof.
  intros request.
  destruct (search_debug_detail_without_all Example.world DebugExample.dumps
              DebugExample.items_of request "perfdata" "run1" ∅
              Example.subject_fields
              ltac:(intros name data; apply elem_of_map_to_list)
              eq_refl eq_refl) as (Hout & Htrace & _).
  split; [exact Hout|exact Htrace].
Defined.

(** X20.  For a subject with an ['all'] field whose fields can all be
    dumped, [search_debug_detail] renders the subject with one entry added,
    ['django_portal_framework_debug_fields']: an ordered mapping that has a
    name for exactly the fields of the subject, ends with ['all'], and holds
    under ['all'] the dump of that field.  The fields themselves are
    rendered as fetched. *)
Theorem search_debug_detail_renders (W : World)
    (dumps : pyval → Z → exn + string)
    (items_of : gmap string pyval → list (string * pyval))
    (request : HttpRequest) (index subject : string)
    (s0 : gmap string pyval) (fields : gmap string pyval)
    (everything template : pyval) (dumped : list (string * pyval)) :
  (∀ name data, (name, data) ∈ items_of fields ↔ fields !! name = Some data) →
  answer W s0 (Call_get_subject index subject (user request))
    = inr (VDict fields) →
  fields !! "all" = Some everything →
  dump_items dumps (items_of fields) = inr dumped →
  answer W s0 (Call_get_template index "search-debug-detail.html")
    = inr template →
  let r := run (search_debug_detail W dumps items_of request index subject)
               s0 in
  ∃ dfields text,
    dumps everything 2%Z = inr text ∧
    last dfields = Some ("all", VStr text) ∧
    (∀ name, name ∈ dfields.*1 ↔ is_Some (fields !! name)) ∧
    let rendered :=
      VDict (<["django_portal_framework_debug_fields" :=
                 ordered_dict dfields]> fields) in
    trace r.2 = [Call_get_subject index subject (user request);
                 Call_get_template index "search-debug-detail.html";
                 Call_render request template rendered] ∧
    r.1 = answer W s0 (Call_render request template rendered).
Proof.
  intros Hitems Hsub Hall Hdump Htpl r. subst r.
  assert (("all" : string) ∈ dumped.*1) as Hthere.
  { rewrite (dump_items_names _ _ _ Hdump).
    apply (list_elem_of_fmap_2 fst _ ("all", everything)). by apply Hitems. }
  destruct (move_to_end_found _ _ Hthere) as [dfields Hmove].
  destruct (move_to_end_present _ _ _ Hmove)
    as ([name value] & Hin & Hname & Hlast & Hnames).
  cbn in Hname. subst name.
  pose proof (dump_items_spec _ _ _ Hdump) as Hspec.
  apply list_elem_of_lookup in Hin as [i Hi].
  destruct (Forall2_lookup_r _ _ _ _ _ Hspec Hi)
    as ([name data] & Hitem & Hname & text & Htext & Hvalue).
  cbn in Hname, Htext, Hvalue. subst name value.
  apply list_elem_of_lookup_2, Hitems in Hitem.
  assert (data = everything) as -> by congruence.
  exists dfields, text. split; [done|]. split; [done|]. split.
  { intros name. rewrite Hnames, (dump_items_names _ _ _ Hdump). split.
    - intros ([name' data] & -> & Hin)%list_elem_of_fmap.
      apply Hitems in Hin. by exists data.
    - intros [data Hdata].
      apply (list_elem_of_fmap_2 fst _ (name, data)). by apply Hitems. }
  unfold search_debug_detail, py_items.
  unfold_calls. unfold_monad. cbn -[move_to_end]. rewrite Hsub.
  cbn -[move_to_end]. rewrite Hdump. cbn -[move_to_end]. rewrite Hmove.
  cbn. by rewrite Htpl.
Qed.

Lemma search_debug_detail_renders_witness :
  let request := Example.get_request Example.anonymous ∅ in
  let r := run (search_debug_detail DebugExample.world DebugExample.dumps
                  DebugExample.items_of request "perfdata" "run1") ∅ in
  ∃ dfields text,
    DebugExample.dumps (VDict ∅) 2%Z = inr text ∧
    last dfields = Some ("all", VStr text) ∧
    (∀ name, name ∈ dfields.*1 ↔
             is_Some (DebugExample.subject_fields !! name)) ∧
    let rendered :=
      VDict (<["django_portal_framework_debug_fields" :=
                 ordered_dict dfields]> DebugExample.subject_fields) in
    trace r.2 = [Call_get_subject "perfdata" "run1" Example.anonymous;
                 Call_get_template "perfdata" "search-debug-detail.html";
                 Call_render request (VStr "search-debug-detail.html")
                   rendered] ∧
    r.1 = inr (VObj "HttpResponse").
Proof.
  intros request.
  refine (search_debug_detail_renders DebugExample.world DebugExample.dumps
            DebugExample.items_of request "perfdata" "run1" ∅
            DebugExample.subject_fields (VDict ∅)
            (VStr "search-debug-detail.html")
            (DebugExample.items_of
               (VStr <$> {[ "all" := "{}"; "title" := "Run 1" ]}))
            ltac:(intros name data; apply elem_of_map_to_list)
            eq_refl eq_refl _ eq_refl).
  vm_compute. reflexivity.
Defined.

(** ** index_selection *)

(** X21.  [index_selection] has one fixed template: it never calls
    [get_template], never writes the session, and every page it renders has
    the template ['index-selection.html'] and a context with the single
    entry ['search_indexes'], holding what [get_setting] returned for
    ['SEARCH_INDEXES']; when [get_setting] raises, nothing is rendered. *)
Theorem index_selection_fixed_template (W : World) (request : HttpRequest)
    (s0 : gmap string pyval) :
  let r := run (index_selection W request) s0 in
  session r.2 = s0 ∧
  (∀ index template, Call_get_template index template ∉ trace r.2) ∧
  (∀ rq template context,
     Call_render rq template context ∈ trace r.2 →
     rq = request ∧ template = VStr "index-selection.html" ∧
     ∃ indexes,
       answer W s0 (Call_get_setting "SEARCH_INDEXES") = inr indexes ∧
       context = VDict {[ "search_indexes" := indexes ]}) ∧
  (∀ e,
     answer W s0 (Call_get_setting "SEARCH_INDEXES") = inl e →
     r.1 = inl e ∧ trace r.2 = [Call_get_setting "SEARCH_INDEXES"]).
Proof.
  intros r. subst r. unfold index_selection. unfold_calls. unfold_monad. cbn.
  destruct (answer W s0 (Call_get_setting "SEARCH_INDEXES"))
    as [e|indexes] eqn:Hset; cbn.
  - split; [done|]. split; [intros ? ? Hc; trace_cases Hc|].
    split; [intros ? ? ? Hc; trace_cases Hc|]. by intros ? [= <-].
  - split; [done|]. split; [intros ? ? Hc; trace_cases Hc|].
    split; [|done]. intros ? ? ? Hc. trace_cases Hc.
    repeat split. by exists indexes.
Qed.

Lemma index_selection_fixed_template_witness :
  let request := Example.get_request Example.anonymous ∅ in
  let r := run (index_selection Example.world request) ∅ in
  ∃ indexes,
    answer Example.world ∅ (Call_get_setting "SEARCH_INDEXES") = inr indexes ∧
    VDict {[ "search_indexes" := VInt 2048 ]}
      = VDict {[ "search_indexes" := indexes ]}.
Proof.
  intros request.
  destruct (index_selection_fixed_template Example.world request ∅)
    as (_ & _ & H & _).
  refine (proj2 (proj2 (H request (VStr "index-selection.html")
                          (VDict {[ "search_indexes" := VInt 2048 ]}) _))).
  apply list_elem_of_further, list_elem_of_here.
Defined.

(** ** A manifest URL that does not parse *)

(** X22.  When [urlparse] rejects the manifest URL with a [ValueError], an
    authenticated [detail_transfer] request is answered like one without a
    manifest: the error is logged, no call reaches the transfer service,
    and the page is rendered with the subject as fetched, without a
    ['detail_error']. *)
Theorem detail_transfer_invalid_url (W : World) (request : HttpRequest)
    (index subject : string) (s0 : gmap string pyval)
    (fields entry : gmap string pyval) (rest : list pyval)
    (url msg : string) (template : pyval) :
  is_authenticated (user request) = true →
  answer W s0 (Call_get_subject index subject (user request))
    = inr (VDict fields) →
  fields !! "remote_file_manifest" = Some (VList (VDict entry :: rest)) →
  entry !! "url" = Some (VStr url) →
  urlsplit W url = inl (ValueError msg) →
  answer W s0 (Call_get_template index "detail-transfer.html")
    = inr template →
  let r := run (detail_transfer W request index subject) s0 in
  trace r.2 = [Call_get_subject index subject (user request);
               Call_log_error [VExc (ValueError msg)];
               Call_get_template index "detail-transfer.html";
               Call_render request template (VDict fields)] ∧
  r.1 = answer W s0 (Call_render request template (VDict fields)).
Proof.
  intros Hauth Hsub Hm Hurl Hsplit Htpl r. subst r.
  rewrite (detail_transfer_authenticated _ _ _ _ _ _ Hauth Hsub).
  unfold transfer_finish, transfer_try, render_detail_transfer, fetched,
    urlparse.
  unfold_calls. unfold_monad. cbn -[py_getitem].
  rewrite Hm. cbn -[py_getitem].
  replace (py_getitem (VDict fields) (VStr "remote_file_manifest"))
    with (inr (VList (VDict entry :: rest)) : exn + pyval)
    by (cbn [py_getitem]; by rewrite Hm).
  cbn -[py_getitem]. rewrite py_getitem_first. cbn. rewrite Hurl. cbn.
  rewrite Hsplit. cbn. by rewrite Htpl.
Qed.

Lemma detail_transfer_invalid_url_witness :
  let W := mkWorld Example.answer
             (λ url, inl (ValueError "Invalid IPv6 URL"))
             (λ _, "<object>") (λ _, ∅) "NoURL" in
  let request := Example.post_request Example.alice in
  let r := run (detail_transfer W request "perfdata" "run1") ∅ in
  trace r.2 = [Call_get_subject "perfdata" "run1" Example.alice;
               Call_log_error [VExc (ValueError "Invalid IPv6 URL")];
               Call_get_template "perfdata" "detail-transfer.html";
               Call_render request (VStr "detail-transfer.html")
                 (VDict Example.subject_fields)] ∧
  r.1 = inr (VObj "HttpResponse").
Proof.
  intros W request.
  exact (detail_transfer_invalid_url W request "perfdata" "run1" ∅
           Example.subject_fields {[ "url" := VStr Example.manifest_url ]} []
           Example.manifest_url "Invalid IPv6 URL"
           (VStr "detail-transfer.html")
           eq_refl eq_refl eq_refl eq_refl eq_refl eq_refl).
Defined.
